(** * OrderManager: a shallow embedding of OrderManager.cpp

    The order tracker of [src/OrderManager/OrderManager.cpp]: the [Order]
    class, the five [Listener] callbacks of [OrderManager] and its three
    accessors, followed by the properties of the event-driven state machine.

    Modelling choices.

    - [int] is a [Z] and every [int] addition and subtraction of the code
      wraps around at 32 bits ([wrap]), as two's complement hardware makes
      it (the C++ standard leaves signed overflow undefined).
    - [double] and [long double] values are the rationals they denote, and
      every floating-point operation of the code rounds its exact result to
      nearest, ties to even: a [double] product to 53 significant bits
      ([dmul]), a [long double] sum to the 64 significant bits of the x87
      extended format ([ldadd]).  The conversions [int] to [double] and
      [double] to [long double] are exact, and so is negation.  The
      exponent range is not part of [roundTo]: [is_double] and
      [is_long_double] say when a rational is a finite value of the format,
      and the statements on values carry them as hypotheses.  Infinities
      and NaN are outside the model.
    - [char side] is an [ascii]; the code only ever tests [side == 'B'].
    - [unordered_map] is a [gmap] keyed by the [int] id.  Every
      [shared_ptr<Order>] is created by [OnInsertOrderRequest] and stored
      under one key only, so an in-place update through the pointer is the
      replacement of the value stored under that key.
    - [replacePendingOrdersMap.find(id)->second] dereferences the end
      iterator when [id] is absent; the handler then has no defined result,
      which the model renders as [None]. *)

From Stdlib Require Import ZArith QArith Qabs Ascii String List Lia Lqa.
From stdpp Require Import base option gmap fin_maps.

Local Open Scope Z_scope.

(** ** Machine arithmetic *)

(** The value of a 32-bit two's complement [int] after an operation whose
    exact result is [z]. *)
Definition wrap (z : Z) : Z :=
  (z + 2147483648) mod 4294967296 - 2147483648.

(** [z] lies between [INT_MIN] and [INT_MAX]. *)
Definition in_int (z : Z) : bool :=
  (-2147483648 <=? z) && (z <=? 2147483647).

(** [x] rounded to [prec] significant bits, to nearest, ties to even: with
    [e] the exponent that gives [|x| / 2^e] exactly [prec] bits before the
    point, the quotient is rounded to an integer and scaled back. *)
Definition roundTo (prec : Z) (x : Q) : Q :=
  let x' := Qred x in
  let n := Qnum x' in
  let d := Zpos (Qden x') in
  if n =? 0 then 0%Q
  else
    let a := Z.abs n in
    let l0 := Z.log2 a - Z.log2 d in
    let l := if (if 0 <=? l0 then d * 2 ^ l0 <=? a else d <=? a * 2 ^ (- l0))
             then l0 else l0 - 1 in
    let e := l - (prec - 1) in
    let num := if 0 <=? e then a else a * 2 ^ (- e) in
    let den := if 0 <=? e then d * 2 ^ e else d in
    let q := num / den in
    let r := num mod den in
    let q' := if 2 * r <? den then q
              else if den <? 2 * r then q + 1
              else if Z.even q then q else q + 1 in
    let mant := Z.sgn n * q' in
    Qred (if 0 <=? e then inject_Z (mant * 2 ^ e)
          else Qmake mant (Z.to_pos (2 ^ (- e)))).

(** The product of two [double]s. *)
Definition dmul (a b : Q) : Q := roundTo 53 (a * b).

(** The sum of two [long double]s. *)
Definition ldadd (a b : Q) : Q := roundTo 64 (a + b).

(** [x] is a finite [double]: a multiple of [2^-1074] below [2^1024] in
    magnitude with at most 53 significant bits. *)
Definition is_double (x : Q) : bool :=
  Qeq_bool (roundTo 53 x) x
  && Pos.eqb (Qden (Qred (x * inject_Z (2 ^ 1074)))) 1
  && negb (Qle_bool (inject_Z (2 ^ 1024)) (Qabs x)).

(** [x] is a finite [long double]: a multiple of [2^-16445] below [2^16384]
    in magnitude with at most 64 significant bits. *)
Definition is_long_double (x : Q) : bool :=
  Qeq_bool (roundTo 64 x) x
  && Pos.eqb (Qden (Qred (x * inject_Z (2 ^ 16445)))) 1
  && negb (Qle_bool (inject_Z (2 ^ 16384)) (Qabs x)).

(** ** Order *)

Inductive OrderState : Type :=
  | NewPending
  | Active
  | Rejected
  | ReplacePending
  | PartiallyFilled
  | Completed.

Definition OrderState_eqb (a b : OrderState) : bool :=
  match a, b with
  | NewPending, NewPending
  | Active, Active
  | Rejected, Rejected
  | ReplacePending, ReplacePending
  | PartiallyFilled, PartiallyFilled
  | Completed, Completed => true
  | _, _ => false
  end.

Record Order : Type := mkOrder {
  id : Z;
  side : ascii;
  price : Q;
  totalQuantity : Z;
  remainingQuantity : Z;
  filledQuantity : Z;
  orderState : OrderState
}.

(** The constructor [Order(id, side, price, quantity)]. *)
Definition newOrder (i : Z) (s : ascii) (p : Q) (quantity : Z) : Order :=
  mkOrder i s p quantity quantity 0 NewPending.

Definition Side (o : Order) : ascii := side o.
Definition Price (o : Order) : Q := price o.

Definition replaceOrder (newId deltaQuantity : Z) (o : Order) : Order :=
  mkOrder newId (side o) (price o)
          (wrap (totalQuantity o + deltaQuantity))
          (wrap (remainingQuantity o + deltaQuantity))
          (filledQuantity o) (orderState o).

Definition set_orderState (st : OrderState) (o : Order) : Order :=
  mkOrder (id o) (side o) (price o) (totalQuantity o)
          (remainingQuantity o) (filledQuantity o) st.

Definition set_remainingQuantity (r : Z) (o : Order) : Order :=
  mkOrder (id o) (side o) (price o) (totalQuantity o)
          r (filledQuantity o) (orderState o).

Definition set_filledQuantity (f : Z) (o : Order) : Order :=
  mkOrder (id o) (side o) (price o) (totalQuantity o)
          (remainingQuantity o) f (orderState o).

(** The state derived from the quantities, the body of the [if] of
    [ChangeOrderState]. *)
Definition derivedState (o : Order) : OrderState :=
  if filledQuantity o =? 0 then Active
  else if (0 <? filledQuantity o) && (0 <? remainingQuantity o)
       then PartiallyFilled
       else Completed.

Definition ChangeOrderState (isPendingOrderUpdate : bool) (o : Order) : Order :=
  if isPendingOrderUpdate
     || (negb (OrderState_eqb (orderState o) NewPending)
         && negb (OrderState_eqb (orderState o) ReplacePending)
         && negb (OrderState_eqb (orderState o) Rejected))
  then set_orderState (derivedState o) o
  else o.

(** ** OrderManager *)

(** A two-entry array indexed by the boolean [side == 'B']. *)
Record Array2 : Type := mkArray2 { at0 : Q; at1 : Q }.

Definition aget (a : Array2) (i : bool) : Q :=
  if i then at1 a else at0 a.

Definition aadd (a : Array2) (i : bool) (v : Q) : Array2 :=
  if i then mkArray2 (at0 a) (ldadd (at1 a) v)
  else mkArray2 (ldadd (at0 a) v) (at1 a).

Definition isB (s : ascii) : bool := Ascii.eqb s "B"%char.

Record OrderManager : Type := mkManager {
  nfq : Z;
  cov : Array2;
  pov : Array2;
  replacePendingOrdersMap : gmap Z (Z * Z);
  orders : gmap Z Order
}.

(** A default-constructed manager. *)
Definition freshManager : OrderManager :=
  mkManager 0 (mkArray2 0 0) (mkArray2 0 0) ∅ ∅.

Definition set_orders (om : gmap Z Order) (m : OrderManager) : OrderManager :=
  mkManager (nfq m) (cov m) (pov m) (replacePendingOrdersMap m) om.

Definition set_pending (pm : gmap Z (Z * Z)) (m : OrderManager) : OrderManager :=
  mkManager (nfq m) (cov m) (pov m) pm (orders m).

Definition updateNFQ (s : ascii) (quantityFilled : Z) (m : OrderManager)
  : OrderManager :=
  mkManager (if isB s then wrap (nfq m + quantityFilled)
             else wrap (nfq m - quantityFilled))
            (cov m) (pov m) (replacePendingOrdersMap m) (orders m).

Definition updateCOV (s : ascii) (value : Q) (m : OrderManager) : OrderManager :=
  mkManager (nfq m) (aadd (cov m) (isB s) value) (pov m)
            (replacePendingOrdersMap m) (orders m).

Definition updatePOV (s : ascii) (value : Q) (m : OrderManager) : OrderManager :=
  mkManager (nfq m) (cov m) (aadd (pov m) (isB s) value)
            (replacePendingOrdersMap m) (orders m).

Definition getNFQ (m : OrderManager) : Z := nfq m.
Definition getCOV (s : ascii) (m : OrderManager) : Q := aget (cov m) (isB s).
Definition getPOV (s : ascii) (m : OrderManager) : Q := aget (pov m) (isB s).

Definition OnInsertOrderRequest (i : Z) (s : ascii) (p : Q) (quantity : Z)
    (m : OrderManager) : OrderManager :=
  match orders m !! i with
  | None => set_orders (<[i := newOrder i s p quantity]> (orders m)) m
  | Some _ => m
  end.

Definition OnReplaceOrderRequest (oldId newId deltaQuantity : Z)
    (m : OrderManager) : OrderManager :=
  match orders m !! oldId with
  | Some o =>
      if negb (OrderState_eqb (orderState o) NewPending)
         && negb (OrderState_eqb (orderState o) ReplacePending)
      then
        let m1 := set_pending
                    (<[oldId := (newId, deltaQuantity)]>
                       (replacePendingOrdersMap m)) m in
        let o1 := set_orderState ReplacePending o in
        let m2 := set_orders (<[oldId := o1]> (orders m1)) m1 in
        updateCOV (Side o1)
                  (- dmul (inject_Z (remainingQuantity o1)) (Price o1))%Q m2
      else m
  | None => m
  end.

Definition OnRequestAcknowledged (i : Z) (m : OrderManager)
  : option OrderManager :=
  match orders m !! i with
  | Some o =>
      match orderState o with
      | NewPending =>
          let o1 := ChangeOrderState true o in
          let m1 := set_orders (<[i := o1]> (orders m)) m in
          Some (updateCOV (Side o1)
                          (dmul (Price o1) (inject_Z (remainingQuantity o1)))
                          m1)
      | ReplacePending =>
          match replacePendingOrdersMap m !! i with
          | Some (newId, deltaQuantity) =>
              let o1 := replaceOrder newId deltaQuantity o in
              let o2 := ChangeOrderState true o1 in
              let m1 := set_orders (<[i := o2]> (orders m)) m in
              Some (updateCOV (Side o2)
                              (dmul (Price o2)
                                    (inject_Z (remainingQuantity o2)))
                              m1)
          | None => None
          end
      | _ => Some m
      end
  | None => Some m
  end.

Definition OnRequestRejected (i : Z) (m : OrderManager) : OrderManager :=
  match orders m !! i with
  | Some o =>
      match orderState o with
      | NewPending =>
          let o1 := set_orderState Rejected (set_remainingQuantity 0 o) in
          set_orders (<[i := o1]> (orders m)) m
      | ReplacePending =>
          let m1 := set_pending (delete i (replacePendingOrdersMap m)) m in
          let o1 := ChangeOrderState true o in
          let m2 := set_orders (<[i := o1]> (orders m1)) m1 in
          updateCOV (Side o1)
                    (dmul (Price o1) (inject_Z (remainingQuantity o1))) m2
      | _ => m
      end
  | None => m
  end.

Definition OnOrderFilled (i : Z) (quantityFilled : Z) (m : OrderManager)
  : OrderManager :=
  match orders m !! i with
  | Some o =>
      if negb (OrderState_eqb (orderState o) Rejected)
      then
        let o1 := set_filledQuantity
                    (wrap (filledQuantity o + quantityFilled)) o in
        let o2 := set_remainingQuantity
                    (wrap (remainingQuantity o1 - quantityFilled)) o1 in
        let m1 := updateNFQ (Side o2) quantityFilled m in
        let m2 := updateCOV (Side o2)
                            (- dmul (Price o2) (inject_Z quantityFilled))%Q
                            m1 in
        let o3 := ChangeOrderState false o2 in
        set_orders (<[i := o3]> (orders m2)) m2
      else m
  | None => m
  end.

(** ** Event sequences *)

(** The five callbacks of [Listener] as one event type. *)
Inductive Event : Type :=
  | InsertOrderRequest (i : Z) (s : ascii) (p : Q) (quantity : Z)
  | ReplaceOrderRequest (oldId newId deltaQuantity : Z)
  | RequestAcknowledged (i : Z)
  | RequestRejected (i : Z)
  | OrderFilled (i : Z) (quantityFilled : Z).

Definition step (e : Event) (m : OrderManager) : option OrderManager :=
  match e with
  | InsertOrderRequest i s p q => Some (OnInsertOrderRequest i s p q m)
  | ReplaceOrderRequest o n d => Some (OnReplaceOrderRequest o n d m)
  | RequestAcknowledged i => OnRequestAcknowledged i m
  | RequestRejected i => Some (OnRequestRejected i m)
  | OrderFilled i q => Some (OnOrderFilled i q m)
  end.

(** The callbacks of [evs] delivered in order, starting from [m]. *)
Fixpoint run (evs : list Event) (m : OrderManager) : option OrderManager :=
  match evs with
  | [] => Some m
  | e :: evs' =>
      match step e m with
      | Some m' => run evs' m'
      | None => None
      end
  end.

(** The calls of [main]. *)
Definition main_events : list Event :=
  [ InsertOrderRequest 100 "B" 200 10;
    RequestAcknowledged 100;
    OrderFilled 100 5;
    ReplaceOrderRequest 100 101 2;
    OrderFilled 100 5;
    OrderFilled 100 1;
    RequestAcknowledged 100 ].

Definition order_at (i : Z) (m : OrderManager) : option Order := orders m !! i.


(** ** Vocabulary of the properties *)

(** The two pending states: those awaiting one market confirmation. *)
Definition pendingState (st : OrderState) : bool :=
  match st with
  | NewPending | ReplacePending => true
  | _ => false
  end.

(** Every order in state [ReplacePending] has a record in the
    pending-replace index under the key that indexes it in [orders]. *)
Definition pending_indexed (m : OrderManager) : Prop :=
  ∀ k o, orders m !! k = Some o → orderState o = ReplacePending →
         is_Some (replacePendingOrdersMap m !! k).

(** Every order in state [Rejected] has no remaining quantity. *)
Definition rejected_drained (m : OrderManager) : Prop :=
  ∀ k o, orders m !! k = Some o → orderState o = Rejected →
         remainingQuantity o = 0.

(** A manager state reached from the fresh manager by some callbacks. *)
Definition reachable (m : OrderManager) : Prop :=
  ∃ evs, run evs freshManager = Some m.

(** *** Fills that take effect *)

(** The side of the order that [OnOrderFilled i _] updates, when it does:
    the order must be present and not [Rejected]. *)
Definition fillTarget (i : Z) (m : OrderManager) : option ascii :=
  match orders m !! i with
  | Some o => if OrderState_eqb (orderState o) Rejected then None
              else Some (side o)
  | None => None
  end.

(** The fill that callback [e] applies in state [m], with the side of its
    order: none unless [e] is a fill that takes effect. *)
Definition appliedFill (e : Event) (m : OrderManager) : list (ascii * Z) :=
  match e with
  | OrderFilled i q =>
      match fillTarget i m with
      | Some s => [(s, q)]
      | None => []
      end
  | _ => []
  end.

(** The fills of [evs] that were applied, in order of arrival. *)
Fixpoint appliedFills (evs : list Event) (m : OrderManager)
  : list (ascii * Z) :=
  match evs with
  | [] => []
  | e :: evs' =>
      match step e m with
      | Some m' => appliedFill e m ++ appliedFills evs' m'
      | None => appliedFill e m
      end
  end.

(** Bid fills count positively, offer fills negatively. *)
Definition signedQuantity (f : ascii * Z) : Z :=
  if isB (fst f) then snd f else - snd f.

Definition signedSum (fs : list (ascii * Z)) : Z :=
  fold_right (fun f acc => signedQuantity f + acc) 0 fs.

(** *** Error paths *)

Inductive ErrorKind : Type :=
  | DuplicateOrderId
  | OrderNotFound
  | InvalidStateForRequest
  | InvalidStateForConfirmation
  | FillOnRejectedOrder.

(** The error, if any, that callback [e] reports in state [m]: the
    branches of the handlers that only log. *)
Definition errorOf (e : Event) (m : OrderManager) : option ErrorKind :=
  match e with
  | InsertOrderRequest i _ _ _ =>
      match orders m !! i with
      | Some _ => Some DuplicateOrderId
      | None => None
      end
  | ReplaceOrderRequest oldId _ _ =>
      match orders m !! oldId with
      | None => Some OrderNotFound
      | Some o => if pendingState (orderState o)
                  then Some InvalidStateForRequest else None
      end
  | RequestAcknowledged i | RequestRejected i =>
      match orders m !! i with
      | None => Some OrderNotFound
      | Some o => if pendingState (orderState o)
                  then None else Some InvalidStateForConfirmation
      end
  | OrderFilled i _ =>
      match orders m !! i with
      | None => Some OrderNotFound
      | Some o => if OrderState_eqb (orderState o) Rejected
                  then Some FillOnRejectedOrder else None
      end
  end.

(** ** Concrete states and scenarios *)

(** Order 100 after insert, acknowledgment and a first fill of 5. *)
Definition order100_filled5 : Order :=
  mkOrder 100 "B" 200 10 5 5 PartiallyFilled.

(** The manager after the first three calls of [main]. *)
Definition manager_filled5 : OrderManager :=
  mkManager 5 (mkArray2 0 1000) (mkArray2 0 0) ∅ {[ 100 := order100_filled5 ]}.

(** The manager after the first four calls of [main]: the replace of order
    100 is pending. *)
Definition manager_replace_pending : OrderManager :=
  mkManager 5 (mkArray2 0 0) (mkArray2 0 0)
            {[ 100 := (101, 2) ]}
            {[ 100 := mkOrder 100 "B" 200 10 5 5 ReplacePending ]}.

(** The [double] nearest to 0.1 and the [double] nearest to 0.3. *)
Definition double_0_1 : Q := 3602879701896397 # 36028797018963968.


(** A bid filled by [INT_MAX] and then by 1. *)
Definition fills_past_INT_MAX : list Event :=
  [ InsertOrderRequest 1 "B" 1 1;
    OrderFilled 1 2147483647;
    OrderFilled 1 1 ].

(** An insert that the market rejects, then a replace request for the
    rejected order and its acknowledgment. *)
Definition rejected_then_replaced : list Event :=
  [ InsertOrderRequest 1 "B" 10 5;
    RequestRejected 1;
    ReplaceOrderRequest 1 2 3;
    RequestAcknowledged 1 ].

(** ** Vocabulary of the further properties *)

(** The id that a callback addresses: the key it looks up in [orders]. *)
Definition target (e : Event) : Z :=
  match e with
  | InsertOrderRequest i _ _ _ => i
  | ReplaceOrderRequest oldId _ _ => oldId
  | RequestAcknowledged i => i
  | RequestRejected i => i
  | OrderFilled i _ => i
  end.

(** The ids of the insert requests of a sequence. *)
Definition insertedIds (evs : list Event) : list Z :=
  flat_map (fun e => match e with
                     | InsertOrderRequest i _ _ _ => [i]
                     | _ => []
                     end) evs.

Definition isRejection (e : Event) : bool :=
  match e with
  | RequestRejected _ => true
  | _ => false
  end.

(** The states an acknowledgment or the resolution of a replace leaves. *)
Definition confirmedState (st : OrderState) : bool :=
  match st with
  | Active | PartiallyFilled | Completed => true
  | _ => false
  end.

(** The comment on [totalQuantity]: filled + remaining, in [int]
    arithmetic. *)
Definition balanced (o : Order) : Prop :=
  wrap (filledQuantity o + remainingQuantity o) = wrap (totalQuantity o).

(** The filled quantity of an order, signed as [updateNFQ] signs it. *)
Definition signedFilled (o : Order) : Z :=
  if isB (side o) then filledQuantity o else - filledQuantity o.

Definition signedFilledTotal (om : gmap Z Order) : Z :=
  map_fold (fun _ o acc => signedFilled o + acc) 0 om.

(** The value [price * remainingQuantity] of an order for the entry [b] of
    [cov], counted when the order is on that side and is not pending. *)
Definition orderValue (b : bool) (o : Order) : Q :=
  if pendingState (orderState o) then 0%Q
  else if Bool.eqb (isB (side o)) b
       then (price o * inject_Z (remainingQuantity o))%Q
       else 0%Q.

Definition orderValueTotal (b : bool) (om : gmap Z Order) : Q :=
  map_fold (fun _ o acc => (orderValue b o + acc)%Q) 0%Q om.

(** Each entry of [cov] is the total value of the orders of its side that
    are not pending. *)
Definition covMatchesOrders (m : OrderManager) : Prop :=
  ∀ b, (aget (cov m) b == orderValueTotal b (orders m))%Q.

(** Every fill of the sequence reaches an order that is not pending (or no
    order at all). *)
Fixpoint fillsReachConfirmed (evs : list Event) (m : OrderManager) : bool :=
  match evs with
  | [] => true
  | e :: evs' =>
      match e with
      | OrderFilled i _ =>
          match orders m !! i with
          | Some o => negb (pendingState (orderState o))
          | None => true
          end
      | _ => true
      end
      && match step e m with
         | Some m' => fillsReachConfirmed evs' m'
         | None => true
         end
  end.

(** The handler of callback [e] computes the new ConfirmedOrderValue and
    the new remaining quantity in state [m] without rounding and without
    overflow: each [double] product it forms is a [double], the
    [long double] sum is a [long double], and the [int] result is within
    range. *)
Definition covStepExact (e : Event) (m : OrderManager) : bool :=
  match e with
  | InsertOrderRequest _ _ _ _ => true
  | ReplaceOrderRequest oldId _ _ =>
      match orders m !! oldId with
      | Some o =>
          if pendingState (orderState o) then true
          else is_double (inject_Z (remainingQuantity o) * price o)
               && is_long_double
                    (getCOV (side o) m
                     - inject_Z (remainingQuantity o) * price o)
      | None => true
      end
  | RequestAcknowledged i =>
      match orders m !! i with
      | Some o =>
          match orderState o with
          | NewPending =>
              is_double (price o * inject_Z (remainingQuantity o))
              && is_long_double
                   (getCOV (side o) m
                    + price o * inject_Z (remainingQuantity o))
          | ReplacePending =>
              match replacePendingOrdersMap m !! i with
              | Some (_, d) =>
                  in_int (remainingQuantity o + d)
                  && is_double (price o * inject_Z (remainingQuantity o + d))
                  && is_long_double
                       (getCOV (side o) m
                        + price o * inject_Z (remainingQuantity o + d))
              | None => true
              end
          | _ => true
          end
      | None => true
      end
  | RequestRejected i =>
      match orders m !! i with
      | Some o =>
          match orderState o with
          | ReplacePending =>
              is_double (price o * inject_Z (remainingQuantity o))
              && is_long_double
                   (getCOV (side o) m
                    + price o * inject_Z (remainingQuantity o))
          | _ => true
          end
      | None => true
      end
  | OrderFilled i q =>
      match orders m !! i with
      | Some o =>
          match orderState o with
          | Rejected => true
          | _ =>
              in_int (remainingQuantity o - q)
              && is_double (price o * inject_Z q)
              && is_long_double (getCOV (side o) m - price o * inject_Z q)
          end
      | None => true
      end
  end.

(** [covStepExact] holds at every callback of the sequence. *)
Fixpoint covRunExact (evs : list Event) (m : OrderManager) : bool :=
  match evs with
  | [] => true
  | e :: evs' =>
      covStepExact e m
      && match step e m with
         | Some m' => covRunExact evs' m'
         | None => true
         end
  end.

(** Two inserts, an acknowledgment each, fills and a replace cycle, every
    fill arriving outside the pending phases. *)
Definition orderly_events : list Event :=
  [ InsertOrderRequest 1 "B" 10 5;
    InsertOrderRequest 2 "O" 3 8;
    RequestAcknowledged 1;
    RequestAcknowledged 2;
    OrderFilled 1 2;
    ReplaceOrderRequest 1 7 4;
    RequestAcknowledged 1;
    OrderFilled 2 8;
    OrderFilled 1 1 ].

(** The manager after [orderly_events]. *)
Definition manager_orderly : OrderManager :=
  mkManager (-5) (mkArray2 0 60) (mkArray2 0 0)
            {[ 1 := (7, 4) ]}
            (<[ 1 := mkOrder 7 "B" 10 9 6 3 PartiallyFilled ]>
               {[ 2 := mkOrder 2 "O" 3 8 0 8 Completed ]}).

(** ** Proof automation *)

(** Unfolds the handler of the callback at hand and splits on its branches. *)
Ltac handler_branches :=
  unfold step, OnInsertOrderRequest, OnReplaceOrderRequest,
    OnRequestAcknowledged, OnRequestRejected, OnOrderFilled in *;
  repeat case_match; simplify_eq/=.

(** Splits a lookup in an updated order index on whether it hits the
    updated key. *)
Ltac hit_or_miss H :=
  simpl in H |- *; apply lookup_insert_Some in H as [[<- <-] | [? H]].

(** Turns a goal on [wrap] into linear arithmetic on quotients and
    remainders. *)
Ltac wrap_arith :=
  unfold wrap in *; Z.to_euclidean_division_equations; lia.

(** * Properties *)

(** ** Machine arithmetic *)

Lemma wrap_in_int (z : Z) : in_int z = true → wrap z = z.
Proof.
  unfold in_int. intros H. apply andb_prop in H as [H1 H2].
  apply Z.leb_le in H1, H2. wrap_arith.
Qed.

Lemma wrap_add_l (a b : Z) : wrap (wrap a + b) = wrap (a + b).
Proof. wrap_arith. Qed.

Lemma wrap_sub_l (a b : Z) : wrap (wrap a - b) = wrap (a - b).
Proof. wrap_arith. Qed.

Lemma wrap_idem (a : Z) : wrap (wrap a) = wrap a.
Proof. wrap_arith. Qed.

Lemma roundTo_Qeq (prec : Z) (x y : Q) :
  (x == y)%Q → roundTo prec x = roundTo prec y.
Proof. intros H. unfold roundTo. by rewrite (Qred_complete x y H). Qed.

Lemma is_double_exact (x : Q) : is_double x = true → (roundTo 53 x == x)%Q.
Proof.
  unfold is_double. intros H.
  apply andb_prop in H as [H _]. apply andb_prop in H as [H _].
  by apply Qeq_bool_eq.
Qed.

Lemma is_long_double_exact (x : Q) :
  is_long_double x = true → (roundTo 64 x == x)%Q.
Proof.
  unfold is_long_double. intros H.
  apply andb_prop in H as [H _]. apply andb_prop in H as [H _].
  by apply Qeq_bool_eq.
Qed.

(** ** Order-level facts *)

Lemma derivedState_resolved (o : Order) :
  derivedState o = Active ∨ derivedState o = PartiallyFilled
  ∨ derivedState o = Completed.
Proof.
  unfold derivedState.
  destruct (filledQuantity o =? 0); [by left|].
  destruct ((0 <? filledQuantity o) && (0 <? remainingQuantity o));
    [right; by left | right; by right].
Qed.

Lemma derivedState_not_Rejected (o : Order) : derivedState o ≠ Rejected.
Proof. destruct (derivedState_resolved o) as [-> | [-> | ->]]; discriminate. Qed.

Lemma derivedState_not_ReplacePending (o : Order) :
  derivedState o ≠ ReplacePending.
Proof. destruct (derivedState_resolved o) as [-> | [-> | ->]]; discriminate. Qed.

Lemma derivedState_is_not_pending (o : Order) :
  pendingState (derivedState o) = false.
Proof. by destruct (derivedState_resolved o) as [-> | [-> | ->]]. Qed.

(** The state update that follows a fill never moves an order into
    [ReplacePending] or [Rejected]. *)
Lemma ChangeOrderState_unforced_state (o : Order) (st : OrderState) :
  st = ReplacePending ∨ st = Rejected →
  orderState (ChangeOrderState false o) = st → orderState o = st.
Proof.
  unfold ChangeOrderState. intros Hst.
  destruct (orderState o) eqn:E; simpl; rewrite ?E; try done.
  all: intros <-; exfalso; destruct Hst as [H | H];
    first [ by apply derivedState_not_ReplacePending in H
          | by apply derivedState_not_Rejected in H ].
Qed.

(** ** Preservation of the invariants by one callback *)

Lemma freshManager_pending_indexed : pending_indexed freshManager.
Proof. intros k o H. simpl in H. by rewrite lookup_empty in H. Qed.

Lemma freshManager_rejected_drained : rejected_drained freshManager.
Proof. intros k o H. simpl in H. by rewrite lookup_empty in H. Qed.

Lemma step_pending_indexed (e : Event) (m m' : OrderManager) :
  pending_indexed m → step e m = Some m' → pending_indexed m'.
Proof.
  intros Inv Hstep. destruct e; handler_branches; try done.
  - (* insert *)
    intros k ord Hk Hst. hit_or_miss Hk; [done | by eapply Inv].
  - (* replace request *)
    intros k ord Hk Hst. hit_or_miss Hk.
    + rewrite lookup_insert_eq. by eexists.
    + rewrite lookup_insert_ne by done. by eapply Inv.
  - (* acknowledged, NewPending *)
    intros k ord Hk Hst. hit_or_miss Hk; [| by eapply Inv].
    by apply derivedState_not_ReplacePending in Hst.
  - (* acknowledged, ReplacePending *)
    intros k ord Hk Hst. hit_or_miss Hk; [| by eapply Inv].
    by apply derivedState_not_ReplacePending in Hst.
  - (* rejected, NewPending *)
    intros k ord Hk Hst. hit_or_miss Hk; [done | by eapply Inv].
  - (* rejected, ReplacePending *)
    intros k ord Hk Hst. hit_or_miss Hk.
    + by apply derivedState_not_ReplacePending in Hst.
    + rewrite lookup_delete_ne by done. by eapply Inv.
  - (* filled *)
    intros k ord Hk Hst. hit_or_miss Hk; [| by eapply Inv].
    apply ChangeOrderState_unforced_state in Hst; [| by left].
    by eapply Inv.
Qed.

Lemma step_rejected_drained (e : Event) (m m' : OrderManager) :
  rejected_drained m → step e m = Some m' → rejected_drained m'.
Proof.
  intros Inv Hstep. destruct e; handler_branches; try done.
  - intros k ord Hk Hst. hit_or_miss Hk; [done | by eapply Inv].
  - intros k ord Hk Hst. hit_or_miss Hk; [done | by eapply Inv].
  - intros k ord Hk Hst. hit_or_miss Hk; [| by eapply Inv].
    by apply derivedState_not_Rejected in Hst.
  - intros k ord Hk Hst. hit_or_miss Hk; [| by eapply Inv].
    by apply derivedState_not_Rejected in Hst.
  - intros k ord Hk Hst. hit_or_miss Hk; [done | by eapply Inv].
  - intros k ord Hk Hst. hit_or_miss Hk; [| by eapply Inv].
    by apply derivedState_not_Rejected in Hst.
  - intros k ord Hk Hst. hit_or_miss Hk; [| by eapply Inv].
    apply ChangeOrderState_unforced_state in Hst; [| by right].
    simpl in Hst. rewrite Hst in *. discriminate.
Qed.

(** On a state that satisfies [pending_indexed] every callback returns. *)
Lemma step_defined (e : Event) (m : OrderManager) :
  pending_indexed m → is_Some (step e m).
Proof.
  intros Inv. destruct e; simpl; try by eexists.
  unfold OnRequestAcknowledged.
  destruct (orders m !! i) as [o |] eqn:Ho; [| by eexists].
  destruct (orderState o) eqn:Hst; try by eexists.
  destruct (Inv i o Ho Hst) as [[newId d] ->]. by eexists.
Qed.

(** ** Runs *)

Lemma run_pending_indexed (evs : list Event) (m m' : OrderManager) :
  pending_indexed m → run evs m = Some m' → pending_indexed m'.
Proof.
  revert m. induction evs as [| e evs IH]; intros m Inv Hrun; simpl in Hrun.
  - by simplify_eq.
  - destruct (step e m) as [m1 |] eqn:Hstep; [| done].
    eapply IH; [| done]. by eapply step_pending_indexed.
Qed.

Lemma run_rejected_drained (evs : list Event) (m m' : OrderManager) :
  rejected_drained m → run evs m = Some m' → rejected_drained m'.
Proof.
  revert m. induction evs as [| e evs IH]; intros m Inv Hrun; simpl in Hrun.
  - by simplify_eq.
  - destruct (step e m) as [m1 |] eqn:Hstep; [| done].
    eapply IH; [| done]. by eapply step_rejected_drained.
Qed.

(** Every sequence of callbacks runs to completion from a state that
    satisfies [pending_indexed]. *)
Lemma run_defined (evs : list Event) (m : OrderManager) :
  pending_indexed m → is_Some (run evs m).
Proof.
  revert m. induction evs as [| e evs IH]; intros m Inv; simpl.
  - by eexists.
  - destruct (step_defined e m Inv) as [m1 Hstep]. rewrite Hstep.
    apply IH. by eapply step_pending_indexed.
Qed.

Lemma run_fresh_defined (evs : list Event) :
  ∃ m, run evs freshManager = Some m.
Proof. apply run_defined, freshManager_pending_indexed. Qed.

(** ** Net filled quantity and pending order value *)

Lemma signedSum_app (fs gs : list (ascii * Z)) :
  signedSum (fs ++ gs) = signedSum fs + signedSum gs.
Proof. induction fs as [| f fs IH]; simpl; lia. Qed.

Lemma step_nfq (e : Event) (m m' : OrderManager) (z : Z) :
  getNFQ m = wrap z →
  step e m = Some m' →
  getNFQ m' = wrap (z + signedSum (appliedFill e m)).
Proof.
  unfold getNFQ. intros Hz Hstep.
  destruct e; unfold appliedFill, fillTarget; handler_branches;
    unfold signedQuantity, Side; simpl; try case_match; simpl;
    rewrite ?Hz, ?wrap_add_l, ?wrap_sub_l; f_equal; try lia; try congruence.
Qed.

Lemma run_nfq (evs : list Event) (m m' : OrderManager) (z : Z) :
  getNFQ m = wrap z →
  run evs m = Some m' →
  getNFQ m' = wrap (z + signedSum (appliedFills evs m)).
Proof.
  revert m z. induction evs as [| e evs IH]; intros m z Hz Hrun; simpl in *.
  - simplify_eq. by rewrite Z.add_0_r.
  - destruct (step e m) as [m1 |] eqn:Hstep; [| done].
    rewrite signedSum_app, Z.add_assoc.
    apply IH; [| done]. by apply step_nfq.
Qed.

Lemma step_pov (e : Event) (m m' : OrderManager) :
  step e m = Some m' → pov m' = pov m.
Proof. intros Hstep. destruct e; by handler_branches. Qed.

Lemma run_pov (evs : list Event) (m m' : OrderManager) :
  run evs m = Some m' → pov m' = pov m.
Proof.
  revert m. induction evs as [| e evs IH]; intros m Hrun; simpl in *.
  - by simplify_eq.
  - destruct (step e m) as [m1 |] eqn:Hstep; [| done].
    rewrite (IH _ Hrun). by eapply step_pov.
Qed.

(** ** Aggregates and the replace cycles *)

Lemma manager_filled5_run :
  run (take 3 main_events) freshManager = Some manager_filled5.
Proof. vm_compute. reflexivity. Qed.

Lemma getCOV_updateCOV_same (s : ascii) (v : Q) (m : OrderManager) :
  getCOV s (updateCOV s v m) = ldadd (getCOV s m) v.
Proof. unfold getCOV, updateCOV, aadd, aget; simpl. by destruct (isB s). Qed.


Lemma getCOV_set_orders (s : ascii) (om : gmap Z Order) (m : OrderManager) :
  getCOV s (set_orders om m) = getCOV s m.
Proof. reflexivity. Qed.

Lemma getCOV_set_pending (s : ascii) (pm : gmap Z (Z * Z)) (m : OrderManager) :
  getCOV s (set_pending pm m) = getCOV s m.
Proof. reflexivity. Qed.

(** A [double] product whose exact value is a [double] is not rounded. *)
Lemma dmul_exact (a b z : Q) :
  (a * b == z)%Q → is_double z = true → (dmul a b == z)%Q.
Proof.
  intros Hz Hd. unfold dmul. rewrite (roundTo_Qeq 53 _ _ Hz).
  by apply is_double_exact.
Qed.

(** A [long double] sum whose exact value is a [long double] is not
    rounded. *)
Lemma ldadd_exact (a b z : Q) :
  (a + b == z)%Q → is_long_double z = true → (ldadd a b == z)%Q.
Proof.
  intros Hz Hd. unfold ldadd. rewrite (roundTo_Qeq 64 _ _ Hz).
  by apply is_long_double_exact.
Qed.

(** What a replace request does to an order in a non-pending state. *)
Lemma OnReplaceOrderRequest_accepted (oldId newId D : Z) (m : OrderManager)
    (o : Order) :
  orders m !! oldId = Some o →
  pendingState (orderState o) = false →
  OnReplaceOrderRequest oldId newId D m =
  updateCOV (side o) (- dmul (inject_Z (remainingQuantity o)) (price o))%Q
    (set_orders (<[oldId := set_orderState ReplacePending o]> (orders m))
       (set_pending (<[oldId := (newId, D)]> (replacePendingOrdersMap m)) m)).
Proof.
  intros Ho Hst. unfold OnReplaceOrderRequest. rewrite Ho.
  by destruct (orderState o).
Qed.

(** C3, as stated, fails on rounding.  Order 1, a bid of one unit at the
    [double] nearest to 0.1, is inserted and acknowledged; the replace
    request with delta 2 and its acknowledgment follow.  The acknowledgment
    adds the [double] product of the price and 3, which is rounded, and
    ConfirmedOrderValue(B) ends above its value before the request plus
    price * 2. *)
Lemma replace_ack_cycle_cov_rounds :
  ∃ m o m2,
    run [InsertOrderRequest 1 "B" double_0_1 1; RequestAcknowledged 1]
        freshManager = Some m
    ∧ orders m !! 1 = Some o
    ∧ pendingState (orderState o) = false
    ∧ OnRequestAcknowledged 1 (OnReplaceOrderRequest 1 2 2 m) = Some m2
    ∧ getCOV (side o) m = double_0_1
    ∧ getCOV (side o) m2 = (1351079888211149 # 4503599627370496)%Q
    ∧ ¬ (getCOV (side o) m2 == getCOV (side o) m + price o * inject_Z 2)%Q.
Proof.
  do 3 eexists.
  split; [vm_compute; reflexivity |].
  split; [vm_compute; reflexivity |].
  split; [reflexivity |].
  split; [vm_compute; reflexivity |].
  split; [vm_compute; reflexivity |].
  split; [vm_compute; reflexivity |].
  vm_compute. discriminate.
Qed.

(** C3, amended: for an order of price P, side S and remaining quantity R
    in a non-pending state, a replace request with delta D immediately
    followed by its acknowledgment increases ConfirmedOrderValue(S) by
    exactly [P*D], provided [R+D] is within the range of [int] and the
    floating-point operations of the two handlers are exact: the products
    [R*P] and [P*(R+D)] are [double]s and the two sums are
    [long double]s.  The request then subtracts [R*P] and the
    acknowledgment, which returns, adds [P*(R+D)]. *)
Theorem replace_ack_cycle_cov (oldId newId D : Z) (m : OrderManager)
    (o : Order) :
  orders m !! oldId = Some o →
  pendingState (orderState o) = false →
  in_int (remainingQuantity o + D) = true →
  is_double (inject_Z (remainingQuantity o) * price o) = true →
  is_double (price o * inject_Z (remainingQuantity o + D)) = true →
  is_long_double
    (getCOV (side o) m - price o * inject_Z (remainingQuantity o)) = true →
  is_long_double
    (getCOV (side o) m - price o * inject_Z (remainingQuantity o)
     + price o * inject_Z (remainingQuantity o + D)) = true →
  ∃ m2,
    OnRequestAcknowledged oldId (OnReplaceOrderRequest oldId newId D m)
      = Some m2
    ∧ (getCOV (side o) (OnReplaceOrderRequest oldId newId D m)
       == getCOV (side o) m - price o * inject_Z (remainingQuantity o))%Q
    ∧ (getCOV (side o) m2
       == getCOV (side o) (OnReplaceOrderRequest oldId newId D m)
          + price o * inject_Z (remainingQuantity o + D))%Q
    ∧ (getCOV (side o) m2 == getCOV (side o) m + price o * inject_Z D)%Q.
Proof.
  intros Ho Hst Hint Hp1 Hp2 Hs1 Hs2.
  rewrite (OnReplaceOrderRequest_accepted _ _ _ _ _ Ho Hst).
  unfold OnRequestAcknowledged; simpl.
  rewrite !lookup_insert_eq; simpl.
  eexists; split; [reflexivity |].
  rewrite !getCOV_updateCOV_same, !getCOV_set_orders, !getCOV_set_pending.
  simpl. rewrite !getCOV_updateCOV_same, !getCOV_set_orders,
    !getCOV_set_pending.
  unfold Side, Price. simpl. rewrite (wrap_in_int _ Hint).
  assert (H1 : (dmul (inject_Z (remainingQuantity o)) (price o)
                == inject_Z (remainingQuantity o) * price o)%Q)
    by (by apply dmul_exact).
  assert (H2 : (dmul (price o) (inject_Z (remainingQuantity o + D))
                == price o * inject_Z (remainingQuantity o + D))%Q)
    by (by apply dmul_exact).
  assert (H3 : (ldadd (getCOV (side o) m)
                  (- dmul (inject_Z (remainingQuantity o)) (price o))
                == getCOV (side o) m
                   - price o * inject_Z (remainingQuantity o))%Q)
    by (apply ldadd_exact; [rewrite H1; ring | done]).
  assert (H4 : (ldadd
                  (ldadd (getCOV (side o) m)
                     (- dmul (inject_Z (remainingQuantity o)) (price o)))
                  (dmul (price o) (inject_Z (remainingQuantity o + D)))
                == getCOV (side o) m
                   - price o * inject_Z (remainingQuantity o)
                   + price o * inject_Z (remainingQuantity o + D))%Q)
    by (apply ldadd_exact; [rewrite H2, H3; ring | done]).
  split; [exact H3 | split].
  - rewrite H4, H3. ring.
  - rewrite H4, inject_Z_plus. ring.
Qed.

Lemma replace_ack_cycle_cov_witness :
  orders manager_filled5 !! 100 = Some order100_filled5
  ∧ pendingState (orderState order100_filled5) = false
  ∧ in_int (remainingQuantity order100_filled5 + 2) = true
  ∧ is_double (inject_Z (remainingQuantity order100_filled5)
               * price order100_filled5) = true
  ∧ is_double (price order100_filled5
               * inject_Z (remainingQuantity order100_filled5 + 2)) = true
  ∧ is_long_double
      (getCOV (side order100_filled5) manager_filled5
       - price order100_filled5
         * inject_Z (remainingQuantity order100_filled5)) = true
  ∧ is_long_double
      (getCOV (side order100_filled5) manager_filled5
       - price order100_filled5
         * inject_Z (remainingQuantity order100_filled5)
       + price order100_filled5
         * inject_Z (remainingQuantity order100_filled5 + 2)) = true
  ∧ ∃ m2,
      OnRequestAcknowledged 100 (OnReplaceOrderRequest 100 101 2 manager_filled5)
        = Some m2
      ∧ (getCOV (side order100_filled5)
           (OnReplaceOrderRequest 100 101 2 manager_filled5)
         == getCOV (side order100_filled5) manager_filled5
            - price order100_filled5
              * inject_Z (remainingQuantity order100_filled5))%Q
      ∧ (getCOV (side order100_filled5) m2
         == getCOV (side order100_filled5)
              (OnReplaceOrderRequest 100 101 2 manager_filled5)
            + price order100_filled5
              * inject_Z (remainingQuantity order100_filled5 + 2))%Q
      ∧ (getCOV (side order100_filled5) m2
         == getCOV (side order100_filled5) manager_filled5
            + price order100_filled5 * inject_Z 2)%Q.
Proof.
  do 7 (split; [vm_compute; reflexivity |]).
  apply (replace_ack_cycle_cov 100 101 2 manager_filled5 order100_filled5);
    vm_compute; reflexivity.
Defined.




(** C5, as stated, fails on overflow.  A bid is filled by [INT_MAX] and
    then by 1: both fills are applied, their signed sum is 2147483648, and
    [getNFQ] returns -2147483648. *)
Lemma nfq_wraps_past_INT_MAX :
  ∃ m,
    run fills_past_INT_MAX freshManager = Some m
    ∧ signedSum (appliedFills fills_past_INT_MAX freshManager) = 2147483648
    ∧ getNFQ m = -2147483648
    ∧ getNFQ m ≠ signedSum (appliedFills fills_past_INT_MAX freshManager).
Proof.
  eexists. split; [vm_compute; reflexivity |].
  split; [vm_compute; reflexivity |].
  split; [vm_compute; reflexivity |].
  vm_compute. discriminate.
Qed.

(** C5, amended: every sequence of callbacks on a fresh manager runs to
    completion, and [getNFQ] then returns the signed sum of the quantities
    of the fills that were applied (bids added, offers subtracted,
    whatever the state of the order, pending or not, when the fill
    arrived) wrapped around to the range of [int]. *)
Theorem nfq_is_wrapped_sum_of_applied_fills (evs : list Event) :
  ∃ m, run evs freshManager = Some m
       ∧ getNFQ m = wrap (signedSum (appliedFills evs freshManager)).
Proof.
  destruct (run_fresh_defined evs) as [m Hrun].
  exists m. split; [done |].
  by rewrite (run_nfq evs freshManager m 0 eq_refl Hrun).
Qed.

(** When the signed sum of the applied fills is within the range of
    [int], [getNFQ] returns it. *)
Lemma nfq_is_sum_in_range (evs : list Event) (m : OrderManager) :
  run evs freshManager = Some m →
  in_int (signedSum (appliedFills evs freshManager)) = true →
  getNFQ m = signedSum (appliedFills evs freshManager).
Proof.
  intros Hrun Hin.
  rewrite (run_nfq evs freshManager m 0 eq_refl Hrun).
  by apply wrap_in_int.
Qed.

(** C8: no handler writes [pov]: after every sequence of callbacks on a
    fresh manager, [getPOV] returns 0 for either side. *)
Theorem pov_never_populated (evs : list Event) (s : ascii) :
  ∃ m, run evs freshManager = Some m ∧ getPOV s m = 0%Q.
Proof.
  destruct (run_fresh_defined evs) as [m Hrun].
  exists m. split; [done |].
  unfold getPOV. rewrite (run_pov _ _ _ Hrun). simpl.
  by destruct (isB s).
Qed.

(** C9: on every error path (duplicate insert id, order not found, replace
    request on a pending order, confirmation for an order that is not
    pending, fill on a rejected order) the callback returns and the manager
    is left as it was: orders, pending-replace index and aggregates. *)
Theorem error_path_leaves_manager_unchanged (e : Event) (m : OrderManager)
    (k : ErrorKind) :
  errorOf e m = Some k → step e m = Some m.
Proof.
  unfold errorOf. intros Herr.
  destruct e; handler_branches; try done.
  (* replace request: the two guards on the state disagree *)
  by destruct (orderState o).
Qed.

Lemma error_path_leaves_manager_unchanged_witness :
  errorOf (InsertOrderRequest 100 "O" 7 3) manager_filled5
    = Some DuplicateOrderId
  ∧ step (InsertOrderRequest 100 "O" 7 3) manager_filled5
    = Some manager_filled5.
Proof.
  split; [reflexivity |].
  apply (error_path_leaves_manager_unchanged _ _ DuplicateOrderId).
  reflexivity.
Defined.

(** ** The pending-replace index *)

Lemma manager_replace_pending_run :
  run (take 4 main_events) freshManager = Some manager_replace_pending.
Proof. vm_compute. reflexivity. Qed.

(** A rejection that resolves a pending replace erases its record. *)
Lemma OnRequestRejected_erases_record (i : Z) (m : OrderManager) (o : Order) :
  orders m !! i = Some o → orderState o = ReplacePending →
  replacePendingOrdersMap (OnRequestRejected i m) !! i = None.
Proof.
  intros Ho Hst. unfold OnRequestRejected. rewrite Ho, Hst. simpl.
  apply lookup_delete_eq.
Qed.

(** An acknowledgment never touches the pending-replace index. *)
Lemma OnRequestAcknowledged_keeps_index (i : Z) (m m' : OrderManager) :
  OnRequestAcknowledged i m = Some m' →
  replacePendingOrdersMap m' = replacePendingOrdersMap m.
Proof. intros Hack. by handler_branches. Qed.

(** No callback but an insert adds a key to the order index, and none
    removes one. *)
Lemma step_keys (e : Event) (m m' : OrderManager) (k : Z) :
  step e m = Some m' →
  (∀ i s p q, e = InsertOrderRequest i s p q → i ≠ k) →
  is_Some (orders m' !! k) ↔ is_Some (orders m !! k).
Proof.
  intros Hstep Hins. destruct e; handler_branches; try done.
  1: rewrite lookup_insert_ne; [done | by eapply Hins].
  all: match goal with
       | |- is_Some (<[?i := _]> _ !! _) ↔ _ =>
           destruct (decide (i = k)) as [-> |];
           [rewrite lookup_insert_eq; split; by eexists
           | by rewrite lookup_insert_ne]
       end.
Qed.

(** C1: the acknowledgment half fails.  In the run of [main], order 100 is
    in state [ReplacePending] before the last call, that call,
    [OnRequestAcknowledged(100)], resolves the replace (the order leaves
    [ReplacePending] with id 101), and the pending-replace index still
    holds the record (101, 2) under 100 afterwards. *)
Theorem ack_leaves_pending_record :
  ∃ m6 m7 o6 o7,
    run (take 6 main_events) freshManager = Some m6
    ∧ order_at 100 m6 = Some o6
    ∧ orderState o6 = ReplacePending
    ∧ OnRequestAcknowledged 100 m6 = Some m7
    ∧ order_at 100 m7 = Some o7
    ∧ orderState o7 = PartiallyFilled
    ∧ id o7 = 101
    ∧ replacePendingOrdersMap m7 !! 100 = Some (101, 2).
Proof.
  do 4 eexists. split; [vm_compute; reflexivity |].
  split; [vm_compute; reflexivity |].
  split; [reflexivity |].
  split; [vm_compute; reflexivity |].
  split; [vm_compute; reflexivity |].
  repeat split.
Qed.

(** ** Rejected orders *)

(** In every reachable state a [Rejected] order has no remaining
    quantity. *)
Lemma reachable_rejected_drained (m : OrderManager) :
  reachable m → rejected_drained m.
Proof.
  intros [evs Hrun].
  by eapply run_rejected_drained; [apply freshManager_rejected_drained |].
Qed.

(** While an order is [Rejected], acknowledgments, rejections and fills
    addressed to it leave the manager as it is. *)
Lemma rejected_order_ignores_confirmations (i q : Z) (m : OrderManager)
    (o : Order) :
  orders m !! i = Some o → orderState o = Rejected →
  OnRequestAcknowledged i m = Some m
  ∧ OnRequestRejected i m = m
  ∧ OnOrderFilled i q m = m.
Proof.
  intros Ho Hst.
  unfold OnRequestAcknowledged, OnRequestRejected, OnOrderFilled.
  by rewrite Ho, Hst.
Qed.

(** C2: the second half fails.  Order 1 is inserted and rejected: it is
    [Rejected] with remaining quantity 0 and ConfirmedOrderValue(B) is 0.
    A replace request for it is accepted and moves it to [ReplacePending];
    the acknowledgment then makes it [Active] with remaining quantity 3 and
    adds 10*3 = 30 to ConfirmedOrderValue(B). *)
Theorem rejected_order_revived_by_replace :
  ∃ m2 m3 m4 o2 o3 o4,
    run (take 2 rejected_then_replaced) freshManager = Some m2
    ∧ order_at 1 m2 = Some o2
    ∧ orderState o2 = Rejected
    ∧ remainingQuantity o2 = 0
    ∧ getCOV "B" m2 = 0%Q
    ∧ run (take 3 rejected_then_replaced) freshManager = Some m3
    ∧ order_at 1 m3 = Some o3
    ∧ orderState o3 = ReplacePending
    ∧ run rejected_then_replaced freshManager = Some m4
    ∧ order_at 1 m4 = Some o4
    ∧ orderState o4 = Active
    ∧ remainingQuantity o4 = 3
    ∧ getCOV "B" m4 = 30%Q.
Proof.
  do 6 eexists.
  split; [vm_compute; reflexivity |].
  split; [vm_compute; reflexivity |].
  do 3 (split; [reflexivity |]).
  split; [vm_compute; reflexivity |].
  split; [vm_compute; reflexivity |].
  split; [reflexivity |].
  split; [vm_compute; reflexivity |].
  split; [vm_compute; reflexivity |].
  repeat split.
Qed.

(** ** The scenario of [main] *)

(** C6, as stated, fails on one observation: after the two fills that
    follow the replace request, no run of the first six calls of [main]
    shows a remaining quantity of 1 for order 100. *)
Lemma main_remaining_after_fills_is_not_1 :
  ¬ ∃ m6 o6,
      run (take 6 main_events) freshManager = Some m6
      ∧ order_at 100 m6 = Some o6
      ∧ remainingQuantity o6 = 1
      ∧ getNFQ m6 = 11.
Proof.
  intros (m6 & o6 & Hrun & Ho & Hrem & _).
  vm_compute in Hrun. simplify_eq. vm_compute in Ho. simplify_eq.
Qed.

(** C6, amended: the observations of the [main] scenario.  After the first
    fill order 100 is [PartiallyFilled] and ConfirmedOrderValue(B) is 1000;
    after the replace request ConfirmedOrderValue(B) is 0; after the two
    subsequent fills the remaining quantity is -1 (the delta is not applied
    yet), NetFilledQuantity is 11 and ConfirmedOrderValue(B) is -1200; the
    final acknowledgment applies the replace: the order, still indexed
    under 100, has id 101 and remaining quantity 1, and
    ConfirmedOrderValue(B) has increased by 200*1 = 200, to -1000. *)
Theorem main_scenario_observations :
  ∃ m3 m4 m6 m7 o3 o6 o7,
    run (take 3 main_events) freshManager = Some m3
    ∧ order_at 100 m3 = Some o3
    ∧ orderState o3 = PartiallyFilled
    ∧ getCOV "B" m3 = 1000%Q
    ∧ run (take 4 main_events) freshManager = Some m4
    ∧ getCOV "B" m4 = 0%Q
    ∧ run (take 6 main_events) freshManager = Some m6
    ∧ order_at 100 m6 = Some o6
    ∧ remainingQuantity o6 = -1
    ∧ getNFQ m6 = 11
    ∧ getCOV "B" m6 = (-1200)%Q
    ∧ run main_events freshManager = Some m7
    ∧ order_at 100 m7 = Some o7
    ∧ id o7 = 101
    ∧ remainingQuantity o7 = 1
    ∧ getCOV "B" m7 = (getCOV "B" m6 + 200 * 1)%Q
    ∧ getCOV "B" m7 = (-1000)%Q.
Proof.
  do 7 eexists.
  split; [vm_compute; reflexivity |].
  split; [vm_compute; reflexivity |].
  do 2 (split; [reflexivity |]).
  split; [vm_compute; reflexivity |].
  split; [reflexivity |].
  split; [vm_compute; reflexivity |].
  split; [vm_compute; reflexivity |].
  do 3 (split; [reflexivity |]).
  split; [vm_compute; reflexivity |].
  split; [vm_compute; reflexivity |].
  repeat split.
Qed.

(** ** Addressing a replaced order *)

(** C7 fails on the code.  After the run of [main], whose last call
    acknowledges the replace (100, 101), the order carries id 101 but is
    still indexed under 100: no order is found under 101, a fill addressed
    to 101 is dropped, and an insert under 101 creates a second order. *)
Theorem replaced_order_not_found_by_new_id :
  ∃ m o,
    run main_events freshManager = Some m
    ∧ order_at 100 m = Some o
    ∧ id o = 101
    ∧ order_at 101 m = None
    ∧ fillTarget 101 m = None
    ∧ OnOrderFilled 101 1 m = m
    ∧ errorOf (OrderFilled 101 1) m = Some OrderNotFound
    ∧ order_at 101 (OnInsertOrderRequest 101 "B" 200 1 m)
      = Some (newOrder 101 "B" 200 1).
Proof.
  do 2 eexists.
  split; [vm_compute; reflexivity |].
  split; [vm_compute; reflexivity |].
  repeat split.
Qed.

(** ** Safety of the unguarded lookup *)

(** C10: in every reachable state each order in state [ReplacePending] has
    a record in the pending-replace index under the key that indexes it in
    the order map, and therefore [OnRequestAcknowledged] returns for every
    id: its lookup [replacePendingOrdersMap.find(id)->second] finds a
    record whenever the [ReplacePending] branch is taken. *)
Theorem replace_pending_lookup_safe (m : OrderManager) :
  reachable m →
  pending_indexed m ∧ ∀ i, is_Some (OnRequestAcknowledged i m).
Proof.
  intros [evs Hrun].
  assert (Inv : pending_indexed m)
    by (eapply run_pending_indexed; [apply freshManager_pending_indexed | done]).
  split; [done |].
  intros i. apply (step_defined (RequestAcknowledged i) m Inv).
Qed.

Lemma replace_pending_lookup_safe_witness :
  reachable manager_replace_pending
  ∧ pending_indexed manager_replace_pending
  ∧ ∀ i, is_Some (OnRequestAcknowledged i manager_replace_pending).
Proof.
  assert (R : reachable manager_replace_pending)
    by (exists (take 4 main_events); exact manager_replace_pending_run).
  split; [exact R |].
  apply (replace_pending_lookup_safe manager_replace_pending R).
Defined.

(** * Further properties of the handlers *)

(** ** Insert followed by its confirmation *)



(** X2: inserting under a free id and rejecting it leaves a [Rejected]
    order with remaining quantity 0 that keeps its total quantity, and
    changes no aggregate and no pending-replace record. *)
Theorem insert_then_reject (i : Z) (s : ascii) (p : Q) (q : Z)
    (m : OrderManager) :
  orders m !! i = None →
  order_at i (OnRequestRejected i (OnInsertOrderRequest i s p q m))
    = Some (mkOrder i s p q 0 0 Rejected)
  ∧ cov (OnRequestRejected i (OnInsertOrderRequest i s p q m)) = cov m
  ∧ nfq (OnRequestRejected i (OnInsertOrderRequest i s p q m)) = nfq m
  ∧ replacePendingOrdersMap
      (OnRequestRejected i (OnInsertOrderRequest i s p q m))
    = replacePendingOrdersMap m.
Proof.
  intros Hfree. unfold OnInsertOrderRequest, OnRequestRejected.
  rewrite Hfree. simpl. rewrite lookup_insert_eq. simpl.
  unfold order_at. simpl. by rewrite lookup_insert_eq.
Qed.

Lemma insert_then_reject_witness :
  orders manager_filled5 !! 7 = None
  ∧ order_at 7 (OnRequestRejected 7 (OnInsertOrderRequest 7 "O" 3 4 manager_filled5))
    = Some (mkOrder 7 "O" 3 4 0 0 Rejected)
  ∧ cov (OnRequestRejected 7 (OnInsertOrderRequest 7 "O" 3 4 manager_filled5))
    = cov manager_filled5
  ∧ nfq (OnRequestRejected 7 (OnInsertOrderRequest 7 "O" 3 4 manager_filled5))
    = nfq manager_filled5
  ∧ replacePendingOrdersMap
      (OnRequestRejected 7 (OnInsertOrderRequest 7 "O" 3 4 manager_filled5))
    = replacePendingOrdersMap manager_filled5.
Proof.
  split; [reflexivity |].
  apply (insert_then_reject 7 "O" 3 4 manager_filled5). reflexivity.
Defined.

(** ** Duplicate callbacks *)

(** X3: a repeated acknowledgment has no effect: once
    [OnRequestAcknowledged(id)] has returned, calling it again leaves the
    manager as it is (the delta of a replace is not applied twice). *)
Theorem ack_twice_is_ack_once (i : Z) (m m' : OrderManager) :
  OnRequestAcknowledged i m = Some m' →
  OnRequestAcknowledged i m' = Some m'.
Proof.
  unfold OnRequestAcknowledged.
  destruct (orders m !! i) as [o |] eqn:Ho; [| intros; simplify_eq; by rewrite Ho].
  destruct (orderState o) eqn:Hst;
    try (intros; simplify_eq; by rewrite Ho, Hst).
  - intros; simplify_eq. simpl. rewrite lookup_insert_eq. simpl.
    by destruct (derivedState_resolved o) as [-> | [-> | ->]].
  - destruct (replacePendingOrdersMap m !! i) as [[newId d] |]; [| done].
    intros; simplify_eq. simpl. rewrite lookup_insert_eq. simpl.
    by destruct (derivedState_resolved (replaceOrder newId d o))
      as [-> | [-> | ->]].
Qed.

Lemma ack_twice_is_ack_once_witness :
  OnRequestAcknowledged 100 manager_replace_pending
    = Some (mkManager 5 (mkArray2 0 1400) (mkArray2 0 0)
              {[ 100 := (101, 2) ]}
              {[ 100 := mkOrder 101 "B" 200 12 7 5 PartiallyFilled ]})
  ∧ OnRequestAcknowledged 100
      (mkManager 5 (mkArray2 0 1400) (mkArray2 0 0)
         {[ 100 := (101, 2) ]}
         {[ 100 := mkOrder 101 "B" 200 12 7 5 PartiallyFilled ]})
    = Some (mkManager 5 (mkArray2 0 1400) (mkArray2 0 0)
              {[ 100 := (101, 2) ]}
              {[ 100 := mkOrder 101 "B" 200 12 7 5 PartiallyFilled ]}).
Proof.
  assert (H : OnRequestAcknowledged 100 manager_replace_pending
    = Some (mkManager 5 (mkArray2 0 1400) (mkArray2 0 0)
              {[ 100 := (101, 2) ]}
              {[ 100 := mkOrder 101 "B" 200 12 7 5 PartiallyFilled ]}))
    by (vm_compute; reflexivity).
  split; [exact H |].
  apply (ack_twice_is_ack_once 100 manager_replace_pending _ H).
Defined.

(** X4: a repeated rejection has no effect. *)
Theorem reject_twice_is_reject_once (i : Z) (m : OrderManager) :
  OnRequestRejected i (OnRequestRejected i m) = OnRequestRejected i m.
Proof.
  unfold OnRequestRejected at 2 3.
  destruct (orders m !! i) as [o |] eqn:Ho;
    [| unfold OnRequestRejected; by rewrite Ho].
  destruct (orderState o) eqn:Hst;
    try (unfold OnRequestRejected; by rewrite Ho, Hst).
  - unfold OnRequestRejected. simpl. by rewrite lookup_insert_eq.
  - unfold OnRequestRejected. simpl. rewrite lookup_insert_eq. simpl.
    by destruct (derivedState_resolved o) as [-> | [-> | ->]].
Qed.

(** X5: a second insert under an id already inserted is ignored, whatever
    its side, price and quantity. *)
Theorem insert_twice_is_insert_once (i : Z) (s s' : ascii) (p p' : Q)
    (q q' : Z) (m : OrderManager) :
  OnInsertOrderRequest i s' p' q' (OnInsertOrderRequest i s p q m)
  = OnInsertOrderRequest i s p q m.
Proof.
  unfold OnInsertOrderRequest at 2 3.
  destruct (orders m !! i) as [o |] eqn:Ho.
  - unfold OnInsertOrderRequest. by rewrite Ho.
  - unfold OnInsertOrderRequest. simpl. by rewrite lookup_insert_eq.
Qed.

(** X6: while a replace request is outstanding a second replace request
    for the same order is ignored: the recorded new id and delta stay those
    of the first request. *)
Theorem replace_twice_is_replace_once (oldId n n' d d' : Z)
    (m : OrderManager) :
  OnReplaceOrderRequest oldId n' d' (OnReplaceOrderRequest oldId n d m)
  = OnReplaceOrderRequest oldId n d m.
Proof.
  unfold OnReplaceOrderRequest at 2 3.
  destruct (orders m !! oldId) as [o |] eqn:Ho;
    [| unfold OnReplaceOrderRequest; by rewrite Ho].
  destruct (negb (OrderState_eqb (orderState o) NewPending)
            && negb (OrderState_eqb (orderState o) ReplacePending)) eqn:Hg.
  - unfold OnReplaceOrderRequest. simpl. by rewrite lookup_insert_eq.
  - unfold OnReplaceOrderRequest. by rewrite Ho, Hg.
Qed.

(** ** What a callback leaves alone *)

Lemma step_elsewhere (e : Event) (m m' : OrderManager) (k : Z) :
  step e m = Some m' → k ≠ target e →
  orders m' !! k = orders m !! k
  ∧ replacePendingOrdersMap m' !! k = replacePendingOrdersMap m !! k.
Proof.
  intros Hstep Hk. destruct e; handler_branches; try done;
    rewrite ?lookup_insert_ne, ?lookup_delete_ne by done; done.
Qed.

(** X7: a callback touches only the order and the pending-replace record
    stored under the id it addresses: under every other key both indexes
    are as before. *)
Theorem step_frame (e : Event) (m m' : OrderManager) (k : Z) :
  step e m = Some m' → k ≠ target e →
  orders m' !! k = orders m !! k
  ∧ replacePendingOrdersMap m' !! k = replacePendingOrdersMap m !! k.
Proof.
  intros Hstep Hk. destruct e; simpl in Hk; handler_branches; try done.
  all: split; first [done | by apply lookup_insert_ne
                     | by apply lookup_delete_ne].
Qed.

Lemma step_frame_witness :
  step (OrderFilled 100 1) manager_replace_pending
    = Some (OnOrderFilled 100 1 manager_replace_pending)
  ∧ 7 ≠ target (OrderFilled 100 1)
  ∧ orders (OnOrderFilled 100 1 manager_replace_pending) !! 7
    = orders manager_replace_pending !! 7
  ∧ replacePendingOrdersMap (OnOrderFilled 100 1 manager_replace_pending) !! 7
    = replacePendingOrdersMap manager_replace_pending !! 7.
Proof.
  assert (Hne : 7 ≠ target (OrderFilled 100 1)) by (simpl; lia).
  split; [reflexivity | split; [exact Hne |]].
  apply (step_frame (OrderFilled 100 1) manager_replace_pending _ 7);
    [reflexivity | exact Hne].
Defined.

Lemma step_keeps_order (e : Event) (m m' : OrderManager) (k : Z) (o : Order) :
  step e m = Some m' → orders m !! k = Some o →
  ∃ o', orders m' !! k = Some o' ∧ side o' = side o ∧ price o' = price o.
Proof.
  intros Hstep Ho. destruct (decide (k = target e)) as [-> | Hk].
  - destruct e; handler_branches; simpl in *; simplify_eq;
      rewrite ?lookup_insert_eq; try (by eexists);
      eexists; (split; [reflexivity |]);
      unfold ChangeOrderState; simpl; try done; by case_match.
  - destruct (step_elsewhere e m m' k Hstep Hk) as [-> _]. by eexists.
Qed.

(** X8: an order is never removed from the index and never changes side or
    price: whatever callbacks follow, the key still holds an order of the
    same side and price. *)
Theorem run_keeps_order (evs : list Event) (m m' : OrderManager) (k : Z)
    (o : Order) :
  run evs m = Some m' → orders m !! k = Some o →
  ∃ o', orders m' !! k = Some o' ∧ side o' = side o ∧ price o' = price o.
Proof.
  revert m o. induction evs as [| e evs IH]; intros m o Hrun Ho; simpl in Hrun.
  - simplify_eq. by eexists.
  - destruct (step e m) as [m1 |] eqn:Hstep; [| done].
    destruct (step_keeps_order e m m1 k o Hstep Ho) as (o1 & Ho1 & <- & <-).
    by eapply IH.
Qed.

Lemma run_keeps_order_witness :
  run (drop 3 main_events) manager_filled5
    = Some (mkManager 11 (mkArray2 0 (-1000)) (mkArray2 0 0)
              {[ 100 := (101, 2) ]}
              {[ 100 := mkOrder 101 "B" 200 12 1 11 PartiallyFilled ]})
  ∧ orders manager_filled5 !! 100 = Some order100_filled5
  ∧ ∃ o', orders (mkManager 11 (mkArray2 0 (-1000)) (mkArray2 0 0)
                    {[ 100 := (101, 2) ]}
                    {[ 100 := mkOrder 101 "B" 200 12 1 11 PartiallyFilled ]})
            !! 100 = Some o'
          ∧ side o' = side order100_filled5
          ∧ price o' = price order100_filled5.
Proof.
  assert (H : run (drop 3 main_events) manager_filled5
    = Some (mkManager 11 (mkArray2 0 (-1000)) (mkArray2 0 0)
              {[ 100 := (101, 2) ]}
              {[ 100 := mkOrder 101 "B" 200 12 1 11 PartiallyFilled ]}))
    by (vm_compute; reflexivity).
  split; [exact H | split; [reflexivity |]].
  apply (run_keeps_order _ manager_filled5 _ 100 order100_filled5 H).
  reflexivity.
Defined.

Lemma step_insert_keys (e : Event) (m m' : OrderManager) (k : Z) :
  step e m = Some m' →
  is_Some (orders m' !! k) ↔
  is_Some (orders m !! k) ∨ k ∈ insertedIds [e].
Proof.
  intros Hstep.
  destruct (decide (k ∈ insertedIds [e])) as [Hin | Hnin].
  - destruct e; simpl in Hin; try by apply elem_of_nil in Hin.
    split; [by right |]. intros _.
    apply list_elem_of_singleton in Hin as ->.
    handler_branches; simpl; [by eexists | rewrite lookup_insert_eq; by eexists].
  - rewrite (step_keys e m m' k Hstep).
    + split; [by left | by intros [? | ?]].
    + intros i s p q ->. simpl in Hnin.
      intros ->. apply Hnin. by apply list_elem_of_singleton.
Qed.

Lemma run_insert_keys (evs : list Event) (m m' : OrderManager) (k : Z) :
  run evs m = Some m' →
  is_Some (orders m' !! k) ↔ is_Some (orders m !! k) ∨ k ∈ insertedIds evs.
Proof.
  revert m. induction evs as [| e evs IH]; intros m Hrun; simpl in Hrun.
  - simplify_eq. simpl. split; [by left |].
    intros [? | Hin]; [done | by apply elem_of_nil in Hin].
  - destruct (step e m) as [m1 |] eqn:Hstep; [| done].
    rewrite (IH _ Hrun), (step_insert_keys e m m1 k Hstep).
    replace (insertedIds (e :: evs)) with (insertedIds [e] ++ insertedIds evs)
      by (simpl; by rewrite app_nil_r).
    rewrite elem_of_app. tauto.
Qed.

(** X9: after any sequence of callbacks on a fresh manager the ids under
    which an order is found are exactly the ids of the insert requests of
    the sequence: no other callback creates an entry (the new id of an
    acknowledged replace included) and none deletes one. *)
Theorem order_keys_are_inserted_ids (evs : list Event) :
  ∃ m, run evs freshManager = Some m
       ∧ ∀ k, is_Some (orders m !! k) ↔ k ∈ insertedIds evs.
Proof.
  destruct (run_fresh_defined evs) as [m Hrun].
  exists m. split; [done |]. intros k.
  rewrite (run_insert_keys evs _ _ k Hrun). simpl. rewrite lookup_empty.
  split; [intros [[? ?] | ?]; done | by right].
Qed.

(** ** Invariants of the two indexes *)

Lemma step_records_have_orders (e : Event) (m m' : OrderManager) :
  (∀ k r, replacePendingOrdersMap m !! k = Some r → is_Some (orders m !! k)) →
  step e m = Some m' →
  ∀ k r, replacePendingOrdersMap m' !! k = Some r → is_Some (orders m' !! k).
Proof.
  intros Inv Hstep k r Hr.
  destruct (decide (k = target e)) as [-> | Hk].
  - destruct e; handler_branches; simpl in *;
      rewrite ?lookup_insert_eq; try (by eexists); try (by eapply Inv).
  - destruct (step_elsewhere e m m' k Hstep Hk) as [Ho Hp].
    rewrite Ho. rewrite Hp in Hr. by eapply Inv.
Qed.

(** X10: in every reachable state each record of the pending-replace index
    lies under the key of an existing order. *)
Theorem pending_records_have_orders (m : OrderManager) (k : Z) (r : Z * Z) :
  reachable m →
  replacePendingOrdersMap m !! k = Some r → is_Some (orders m !! k).
Proof.
  intros [evs Hrun]. revert k r.
  assert (G : ∀ evs m0,
    (∀ k r, replacePendingOrdersMap m0 !! k = Some r → is_Some (orders m0 !! k)) →
    run evs m0 = Some m →
    ∀ k r, replacePendingOrdersMap m !! k = Some r → is_Some (orders m !! k)).
  { clear. induction evs as [| e evs IH]; intros m0 Inv Hrun; simpl in Hrun.
    - by simplify_eq.
    - destruct (step e m0) as [m1 |] eqn:Hstep; [| done].
      eapply IH; [| done]. by eapply step_records_have_orders. }
  apply (G evs freshManager); [| done].
  intros k r Hr. simpl in Hr. by rewrite lookup_empty in Hr.
Qed.

Lemma pending_records_have_orders_witness :
  reachable manager_replace_pending
  ∧ replacePendingOrdersMap manager_replace_pending !! 100 = Some (101, 2)
  ∧ is_Some (orders manager_replace_pending !! 100).
Proof.
  assert (R : reachable manager_replace_pending)
    by (exists (take 4 main_events); exact manager_replace_pending_run).
  split; [exact R | split; [reflexivity |]].
  apply (pending_records_have_orders manager_replace_pending 100 (101, 2) R).
  reflexivity.
Defined.

(** ** Invariants of the order states *)

Lemma step_stays_confirmed_or_replacing (e : Event) (m m' : OrderManager)
    (k : Z) (o : Order) :
  step e m = Some m' → orders m !! k = Some o →
  orderState o ≠ NewPending → orderState o ≠ Rejected →
  ∃ o', orders m' !! k = Some o'
        ∧ orderState o' ≠ NewPending ∧ orderState o' ≠ Rejected.
Proof.
  intros Hstep Ho Hn Hr. destruct (decide (k = target e)) as [-> | Hk].
  - destruct e; handler_branches; simpl in *; simplify_eq;
      rewrite ?lookup_insert_eq; try (by eexists);
      eexists; (split; [reflexivity |]); simpl;
      try (unfold ChangeOrderState; simpl; case_match; simpl);
      try done;
      match goal with
      | |- derivedState ?x ≠ _ ∧ _ =>
          by destruct (derivedState_resolved x) as [-> | [-> | ->]]
      end.
  - destruct (step_elsewhere e m m' k Hstep Hk) as [-> _]. by eexists.
Qed.

(** X11: an order that has left [NewPending] without being rejected is
    never [NewPending] or [Rejected] again, whatever callbacks follow: only
    the rejection of an insert produces a [Rejected] order. *)
Theorem confirmed_order_never_rejected (evs : list Event)
    (m m' : OrderManager) (k : Z) (o : Order) :
  run evs m = Some m' → orders m !! k = Some o →
  orderState o ≠ NewPending → orderState o ≠ Rejected →
  ∃ o', orders m' !! k = Some o'
        ∧ orderState o' ≠ NewPending ∧ orderState o' ≠ Rejected.
Proof.
  revert m o. induction evs as [| e evs IH]; intros m o Hrun Ho Hn Hr;
    simpl in Hrun.
  - simplify_eq. by eexists.
  - destruct (step e m) as [m1 |] eqn:Hstep; [| done].
    destruct (step_stays_confirmed_or_replacing e m m1 k o Hstep Ho Hn Hr)
      as (o1 & Ho1 & Hn1 & Hr1).
    by eapply IH.
Qed.

Lemma confirmed_order_never_rejected_witness :
  run [RequestRejected 100; ReplaceOrderRequest 100 101 2; RequestRejected 100]
      manager_filled5
    = Some (mkManager 5 (mkArray2 0 1000) (mkArray2 0 0) ∅
              {[ 100 := order100_filled5 ]})
  ∧ orders manager_filled5 !! 100 = Some order100_filled5
  ∧ orderState order100_filled5 ≠ NewPending
  ∧ orderState order100_filled5 ≠ Rejected
  ∧ ∃ o', orders (mkManager 5 (mkArray2 0 1000) (mkArray2 0 0) ∅
                    {[ 100 := order100_filled5 ]}) !! 100 = Some o'
          ∧ orderState o' ≠ NewPending ∧ orderState o' ≠ Rejected.
Proof.
  assert (H : run [RequestRejected 100; ReplaceOrderRequest 100 101 2;
                   RequestRejected 100] manager_filled5
    = Some (mkManager 5 (mkArray2 0 1000) (mkArray2 0 0) ∅
              {[ 100 := order100_filled5 ]}))
    by (vm_compute; reflexivity).
  assert (Hn : orderState order100_filled5 ≠ NewPending) by discriminate.
  assert (Hr : orderState order100_filled5 ≠ Rejected) by discriminate.
  split; [exact H | split; [reflexivity | split; [exact Hn | split; [exact Hr |]]]].
  apply (confirmed_order_never_rejected _ manager_filled5 _ 100
           order100_filled5 H); [reflexivity | exact Hn | exact Hr].
Defined.

Lemma derivedState_set_orderState (st : OrderState) (o : Order) :
  derivedState (set_orderState st o) = derivedState o.
Proof. reflexivity. Qed.

Lemma step_state_agrees (e : Event) (m m' : OrderManager) :
  (∀ k o, orders m !! k = Some o → confirmedState (orderState o) = true →
          orderState o = derivedState o) →
  step e m = Some m' →
  ∀ k o, orders m' !! k = Some o → confirmedState (orderState o) = true →
         orderState o = derivedState o.
Proof.
  intros Inv Hstep k ord Hk Hc.
  destruct (decide (k = target e)) as [-> | Hne].
  - destruct e; revert Hk Hc; handler_branches; simpl;
      rewrite ?lookup_insert_eq; intros Hk Hc; simplify_eq;
      try (by eapply Inv); try done.
    (* a fill *)
    revert Hc. unfold ChangeOrderState. simpl.
    destruct (orderState o) eqn:Hst; simpl; rewrite ?Hst; simpl;
      first [discriminate | reflexivity].
  - destruct (step_elsewhere e m m' k Hstep Hne) as [Ho _].
    rewrite Ho in Hk. by eapply Inv.
Qed.

(** X12: in every reachable state an order that is [Active],
    [PartiallyFilled] or [Completed] carries the state that its quantities
    determine: [Active] when nothing is filled, [PartiallyFilled] when the
    filled and the remaining quantity are both positive, [Completed]
    otherwise. *)
Theorem confirmed_state_agrees_with_quantities (m : OrderManager) (k : Z)
    (o : Order) :
  reachable m → orders m !! k = Some o →
  confirmedState (orderState o) = true →
  orderState o = derivedState o.
Proof.
  intros [evs Hrun]. revert k o.
  assert (G : ∀ evs m0,
    (∀ k o, orders m0 !! k = Some o → confirmedState (orderState o) = true →
            orderState o = derivedState o) →
    run evs m0 = Some m →
    ∀ k o, orders m !! k = Some o → confirmedState (orderState o) = true →
           orderState o = derivedState o).
  { clear. induction evs as [| e evs IH]; intros m0 Inv Hrun; simpl in Hrun.
    - by simplify_eq.
    - destruct (step e m0) as [m1 |] eqn:Hstep; [| done].
      eapply IH; [| done]. by eapply step_state_agrees. }
  apply (G evs freshManager); [| done].
  intros k o Ho. simpl in Ho. by rewrite lookup_empty in Ho.
Qed.

Lemma confirmed_state_agrees_with_quantities_witness :
  reachable manager_filled5
  ∧ orders manager_filled5 !! 100 = Some order100_filled5
  ∧ confirmedState (orderState order100_filled5) = true
  ∧ orderState order100_filled5 = derivedState order100_filled5.
Proof.
  assert (R : reachable manager_filled5)
    by (exists (take 3 main_events); exact manager_filled5_run).
  split; [exact R | split; [reflexivity | split; [reflexivity |]]].
  apply (confirmed_state_agrees_with_quantities manager_filled5 100
           order100_filled5 R); reflexivity.
Defined.

(** ** The quantities of an order *)

Lemma step_balanced (e : Event) (m m' : OrderManager) :
  isRejection e = false →
  (∀ k o, orders m !! k = Some o → balanced o) →
  step e m = Some m' →
  ∀ k o, orders m' !! k = Some o → balanced o.
Proof.
  intros Hrej Inv Hstep k ord Hk.
  destruct (decide (k = target e)) as [-> | Hne].
  - destruct e; revert Hk; handler_branches; simpl;
      rewrite ?lookup_insert_eq; intros Hk; simplify_eq;
      try (by eapply Inv); try done.
    all: try match goal with H : orders _ !! _ = Some _ |- _ =>
               specialize (Inv _ _ H) end;
      unfold balanced, ChangeOrderState in *; simpl;
      try case_match; simpl; wrap_arith.
  - destruct (step_elsewhere e m m' k Hstep Hne) as [Ho _].
    rewrite Ho in Hk. by eapply Inv.
Qed.

(** X13: as long as no request is rejected, [totalQuantity] is filled +
    remaining for every order, as its comment says, in the arithmetic of
    [int]: the two agree once wrapped around, and therefore exactly
    whenever filled + remaining is within the range of [int].  (The
    rejection of an insert zeroes the remaining quantity and keeps the
    total.) *)
Theorem total_is_filled_plus_remaining (evs : list Event) (m : OrderManager)
    (k : Z) (o : Order) :
  forallb (fun e => negb (isRejection e)) evs = true →
  run evs freshManager = Some m →
  orders m !! k = Some o →
  wrap (filledQuantity o + remainingQuantity o) = wrap (totalQuantity o).
Proof.
  intros Hrej Hrun. revert k o.
  assert (G : ∀ evs m0,
    forallb (fun e => negb (isRejection e)) evs = true →
    (∀ k o, orders m0 !! k = Some o → balanced o) →
    run evs m0 = Some m →
    ∀ k o, orders m !! k = Some o → balanced o).
  { clear. induction evs as [| e evs IH]; intros m0 Hall Inv Hrun;
      simpl in Hrun, Hall.
    - by simplify_eq.
    - apply andb_prop in Hall as [He Hall].
      destruct (step e m0) as [m1 |] eqn:Hstep; [| done].
      eapply IH; [done | | done].
      eapply step_balanced; [| done | done].
      by destruct (isRejection e). }
  apply (G evs freshManager); [done | | done].
  intros k o Ho. simpl in Ho. by rewrite lookup_empty in Ho.
Qed.

Lemma total_is_filled_plus_remaining_witness :
  forallb (fun e => negb (isRejection e)) main_events = true
  ∧ run main_events freshManager
    = Some (mkManager 11 (mkArray2 0 (-1000)) (mkArray2 0 0)
              {[ 100 := (101, 2) ]}
              {[ 100 := mkOrder 101 "B" 200 12 1 11 PartiallyFilled ]})
  ∧ orders (mkManager 11 (mkArray2 0 (-1000)) (mkArray2 0 0)
              {[ 100 := (101, 2) ]}
              {[ 100 := mkOrder 101 "B" 200 12 1 11 PartiallyFilled ]}) !! 100
    = Some (mkOrder 101 "B" 200 12 1 11 PartiallyFilled)
  ∧ wrap (filledQuantity (mkOrder 101 "B" 200 12 1 11 PartiallyFilled)
          + remainingQuantity (mkOrder 101 "B" 200 12 1 11 PartiallyFilled))
    = wrap (totalQuantity (mkOrder 101 "B" 200 12 1 11 PartiallyFilled)).
Proof.
  assert (H : run main_events freshManager
    = Some (mkManager 11 (mkArray2 0 (-1000)) (mkArray2 0 0)
              {[ 100 := (101, 2) ]}
              {[ 100 := mkOrder 101 "B" 200 12 1 11 PartiallyFilled ]}))
    by (vm_compute; reflexivity).
  split; [reflexivity | split; [exact H | split; [reflexivity |]]].
  apply (total_is_filled_plus_remaining main_events _ 100 _ eq_refl H).
  reflexivity.
Defined.

(** ** Aggregates against the order index *)

Lemma signedFilledTotal_fresh (om : gmap Z Order) (i : Z) (o : Order) :
  om !! i = None →
  signedFilledTotal (<[i := o]> om) = signedFilled o + signedFilledTotal om.
Proof.
  intros Hi. unfold signedFilledTotal.
  apply (map_fold_insert_L (fun _ o acc => signedFilled o + acc)); [| done].
  intros; lia.
Qed.

Lemma signedFilledTotal_update (om : gmap Z Order) (i : Z) (o o' : Order) :
  om !! i = Some o →
  signedFilledTotal (<[i := o']> om)
  = signedFilledTotal om - signedFilled o + signedFilled o'.
Proof.
  intros Hi. rewrite <- (insert_delete_eq om i o').
  rewrite signedFilledTotal_fresh by apply lookup_delete_eq.
  unfold signedFilledTotal at 2.
  rewrite (map_fold_delete_L (fun _ o acc => signedFilled o + acc) 0 i o om);
    [| intros; lia | done].
  fold (signedFilledTotal (delete i om)). lia.
Qed.

Lemma step_nfq_total (e : Event) (m m' : OrderManager) :
  nfq m = wrap (signedFilledTotal (orders m)) →
  step e m = Some m' →
  nfq m' = wrap (signedFilledTotal (orders m')).
Proof.
  intros Inv Hstep. destruct e; handler_branches; try done.
  1: rewrite signedFilledTotal_fresh by done;
     unfold signedFilled; simpl; case_match; rewrite Inv; f_equal; lia.
  all: erewrite signedFilledTotal_update by done;
    unfold signedFilled, ChangeOrderState, Side; simpl;
    repeat case_match; simpl in *; first [congruence | wrap_arith].
Qed.

(** X14: in every reachable state NetFilledQuantity equals the sum, over
    all orders of the index, of their filled quantities, bids counted
    positively and offers negatively, wrapped around to the range of
    [int]. *)
Theorem nfq_is_total_of_filled_quantities (m : OrderManager) :
  reachable m → getNFQ m = wrap (signedFilledTotal (orders m)).
Proof.
  intros [evs Hrun]. unfold getNFQ.
  assert (G : ∀ evs m0, nfq m0 = wrap (signedFilledTotal (orders m0)) →
                        run evs m0 = Some m →
                        nfq m = wrap (signedFilledTotal (orders m))).
  { clear. induction evs as [| e evs IH]; intros m0 Inv Hrun; simpl in Hrun.
    - by simplify_eq.
    - destruct (step e m0) as [m1 |] eqn:Hstep; [| done].
      eapply IH; [| done]. by eapply step_nfq_total. }
  by apply (G evs freshManager).
Qed.

Lemma nfq_is_total_of_filled_quantities_witness :
  reachable manager_replace_pending
  ∧ getNFQ manager_replace_pending
    = wrap (signedFilledTotal (orders manager_replace_pending)).
Proof.
  assert (R : reachable manager_replace_pending)
    by (exists (take 4 main_events); exact manager_replace_pending_run).
  split; [exact R |].
  apply (nfq_is_total_of_filled_quantities manager_replace_pending R).
Defined.

Lemma Qeq_PreOrder : PreOrder Qeq.
Proof. split; [exact Qeq_refl | exact Qeq_trans]. Qed.

Lemma orderValueTotal_fresh (b : bool) (om : gmap Z Order) (i : Z)
    (o : Order) :
  om !! i = None →
  (orderValueTotal b (<[i := o]> om)
   == orderValue b o + orderValueTotal b om)%Q.
Proof.
  intros Hi. unfold orderValueTotal.
  pose proof Qeq_PreOrder.
  apply (map_fold_insert Qeq (fun _ o acc => (orderValue b o + acc)%Q));
    [| | done].
  - intros _ z x y Hxy. by rewrite Hxy.
  - intros; ring.
Qed.

Lemma orderValueTotal_update (b : bool) (om : gmap Z Order) (i : Z)
    (o o' : Order) :
  om !! i = Some o →
  (orderValueTotal b (<[i := o']> om)
   == orderValueTotal b om - orderValue b o + orderValue b o')%Q.
Proof.
  intros Hi. rewrite <- (insert_delete_eq om i o').
  rewrite orderValueTotal_fresh by apply lookup_delete_eq.
  pose proof Qeq_PreOrder.
  assert (Hdel : (orderValueTotal b om
                  == orderValue b o + orderValueTotal b (delete i om))%Q).
  { unfold orderValueTotal.
    apply (map_fold_delete Qeq (fun _ o acc => (orderValue b o + acc)%Q));
      [| | done].
    - intros _ z x y Hxy. by rewrite Hxy.
    - intros; ring. }
  rewrite Hdel. ring.
Qed.

(** The entry [b] of [cov] after an addition to entry [i] that is exact. *)
Lemma aget_aadd_exact (a : Array2) (i b : bool) (v z : Q) :
  (v == z)%Q → is_long_double (aget a i + z) = true →
  (aget (aadd a i v) b
   == if Bool.eqb i b then aget a b + z else aget a b)%Q.
Proof.
  intros Hv Hz.
  assert (H : (ldadd (aget a i) v == aget a i + z)%Q)
    by (apply ldadd_exact; [by rewrite Hv | done]).
  unfold aadd, aget in *. destruct i, b; simpl; first [exact H | reflexivity].
Qed.

Lemma step_covMatchesOrders (e : Event) (m m' : OrderManager) :
  covMatchesOrders m →
  (∀ i q o, e = OrderFilled i q → orders m !! i = Some o →
            pendingState (orderState o) = false) →
  covStepExact e m = true →
  step e m = Some m' →
  covMatchesOrders m'.
Proof.
  intros Inv Hfill Hex Hstep b. specialize (Inv b). revert b Inv.
  unfold covStepExact, getCOV in Hex.
  destruct e;
    [ | | | | pose proof (fun o => Hfill _ _ o eq_refl) as Hconf ];
    clear Hfill; handler_branches; try done;
    try match goal with
        | H : orders _ !! _ = Some _, Hc : ∀ o, _ → _ |- _ =>
            first [specialize (Hc _ H) | specialize (Hc _ eq_refl)]
        end;

    try match goal with
        | H : orderState ?x = _, Hc : pendingState (orderState ?x) = false
          |- _ => rewrite H in Hc; try discriminate
        end;
    repeat match goal with
           | H : _ && _ = true |- _ => apply andb_prop in H as [? ?]
           end;
    try match goal with
        | H1 : pendingState (orderState ?x) = true,
          H0 : negb (OrderState_eqb (orderState ?x) NewPending) = true
          |- _ => by destruct (orderState x)
        end;
    intros b Inv.
  all: first
    [ rewrite orderValueTotal_fresh by done; rewrite <- Inv;
      unfold orderValue; simpl; ring
    | erewrite orderValueTotal_update by done; rewrite <- Inv;
      unfold Side, Price, ChangeOrderState; simpl;
      repeat match goal with
             | H : orderState ?x = _ |- context [orderState ?x] =>
                 rewrite H
             end; simpl;
      repeat match goal with
             | H : in_int ?z = true |- context [wrap ?z] =>
                 rewrite (wrap_in_int z H)
             end;
      try match goal with
          | |- context [aget (aadd ?a ?i (Qopp (dmul ?x ?y))) ?c] =>
              rewrite (aget_aadd_exact a i c (Qopp (dmul x y))
                         (- (x * y))%Q);
              [ | by rewrite (dmul_exact x y _ (Qeq_refl _)) | done ]
          | |- context [aget (aadd ?a ?i (dmul ?x ?y)) ?c] =>
              rewrite (aget_aadd_exact a i c (dmul x y) (x * y)%Q);
              [ | by apply dmul_exact | done ]
          end;
      unfold orderValue; simpl;
      repeat match goal with
             | H : orderState ?x = _ |- context [orderState ?x] =>
                 rewrite H
             | H : pendingState ?x = _ |- context [pendingState ?x] =>
                 rewrite H
             | H : in_int ?z = true |- context [wrap ?z] =>
                 rewrite (wrap_in_int z H)
             end; simpl;
      rewrite ?derivedState_is_not_pending;
      unfold Z.sub; rewrite ?inject_Z_plus, ?inject_Z_opp;
      try match goal with
          | |- context [Bool.eqb ?u ?v] => destruct (Bool.eqb u v)
          end; ring ].
Qed.

Lemma run_covMatchesOrders (evs : list Event) (m m' : OrderManager) :
  covMatchesOrders m →
  fillsReachConfirmed evs m = true →
  covRunExact evs m = true →
  run evs m = Some m' →
  covMatchesOrders m'.
Proof.
  revert m. induction evs as [| e evs IH]; intros m Inv Hf Hx Hrun;
    simpl in Hrun, Hf, Hx.
  - by simplify_eq.
  - apply andb_prop in Hf as [He Hf]. apply andb_prop in Hx as [Hxe Hx].
    destruct (step e m) as [m1 |] eqn:Hstep; [| done].
    eapply IH; [| done | done | done].
    eapply step_covMatchesOrders; [done | | done | done].
    intros i q o -> Ho. rewrite Ho in He. by destruct (pendingState _).
Qed.

(** X15: when every fill of a sequence reaches an order that is not
    pending, and no handler rounds or overflows in computing
    ConfirmedOrderValue and the remaining quantities, ConfirmedOrderValue
    of a side is, after the sequence, the total of
    [price * remainingQuantity] over the orders of that side that are not
    pending. *)
Theorem cov_is_value_of_confirmed_orders (evs : list Event)
    (m : OrderManager) (s : ascii) :
  fillsReachConfirmed evs freshManager = true →
  covRunExact evs freshManager = true →
  run evs freshManager = Some m →
  (getCOV s m == orderValueTotal (isB s) (orders m))%Q.
Proof.
  intros Hf Hx Hrun. unfold getCOV.
  apply (run_covMatchesOrders evs freshManager m); [| done | done | done].
  intros b. unfold orderValueTotal. simpl. rewrite map_fold_empty.
  by destruct b.
Qed.

Lemma cov_is_value_of_confirmed_orders_witness :
  fillsReachConfirmed orderly_events freshManager = true
  ∧ covRunExact orderly_events freshManager = true
  ∧ run orderly_events freshManager = Some manager_orderly
  ∧ (getCOV "B" manager_orderly
     == orderValueTotal (isB "B") (orders manager_orderly))%Q.
Proof.
  assert (Hf : fillsReachConfirmed orderly_events freshManager = true)
    by (vm_compute; reflexivity).
  assert (Hx : covRunExact orderly_events freshManager = true)
    by (vm_compute; reflexivity).
  assert (H : run orderly_events freshManager = Some manager_orderly)
    by (vm_compute; reflexivity).
  split; [exact Hf | split; [exact Hx | split; [exact H |]]].
  apply (cov_is_value_of_confirmed_orders orderly_events _ "B" Hf Hx H).
Defined.

(** ** Fills *)

Lemma OnOrderFilled_applied (i q : Z) (m : OrderManager) (o : Order) :
  orders m !! i = Some o → orderState o ≠ Rejected →
  OnOrderFilled i q m
  = mkManager (if isB (side o) then wrap (nfq m + q) else wrap (nfq m - q))
      (aadd (cov m) (isB (side o)) (- dmul (price o) (inject_Z q))%Q)
      (pov m) (replacePendingOrdersMap m)
      (<[i := mkOrder (id o) (side o) (price o) (totalQuantity o)
                (wrap (remainingQuantity o - q))
                (wrap (filledQuantity o + q))
                (if pendingState (orderState o) then orderState o
                 else derivedState
                        (mkOrder (id o) (side o) (price o) (totalQuantity o)
                           (wrap (remainingQuantity o - q))
                           (wrap (filledQuantity o + q))
                           (orderState o)))]> (orders m)).
Proof.
  intros Ho Hr. unfold OnOrderFilled, ChangeOrderState. rewrite Ho.
  unfold set_remainingQuantity, set_filledQuantity, set_orders, updateCOV,
    updateNFQ, Side, Price. simpl.
  destruct (orderState o) eqn:Hst; simpl; first [reflexivity | by destruct Hr].
Qed.

(** X16: two fills of one order amount to a single fill of the summed
    quantity, when that sum is an [int]: the order index, NetFilledQuantity
    and the pending-replace index are the same.  (ConfirmedOrderValue is
    not part of the statement: the two products are rounded
    separately.) *)
Theorem two_fills_are_one (i q1 q2 : Z) (m : OrderManager) :
  in_int (q1 + q2) = true →
  orders (OnOrderFilled i q2 (OnOrderFilled i q1 m))
    = orders (OnOrderFilled i (q1 + q2) m)
  ∧ getNFQ (OnOrderFilled i q2 (OnOrderFilled i q1 m))
    = getNFQ (OnOrderFilled i (q1 + q2) m)
  ∧ replacePendingOrdersMap (OnOrderFilled i q2 (OnOrderFilled i q1 m))
    = replacePendingOrdersMap (OnOrderFilled i (q1 + q2) m).
Proof.
  intros _.
  destruct (orders m !! i) as [o |] eqn:Ho.
  2: { assert (Hid : ∀ q, OnOrderFilled i q m = m)
         by (intros; unfold OnOrderFilled; by rewrite Ho).
       by rewrite !Hid. }
  assert (Hdec : orderState o = Rejected ∨ orderState o ≠ Rejected)
    by (destruct (orderState o); (by left) || (by right)).
  destruct Hdec as [Hr | Hr].
  { assert (Hid : ∀ q, OnOrderFilled i q m = m)
      by (intros; unfold OnOrderFilled; by rewrite Ho, Hr).
    by rewrite !Hid. }
  rewrite (OnOrderFilled_applied i (q1 + q2) m o Ho Hr).
  rewrite (OnOrderFilled_applied i q1 m o Ho Hr).
  erewrite OnOrderFilled_applied; [| simpl; apply lookup_insert_eq |].
  2: { simpl. destruct (pendingState (orderState o)); [done |].
       apply derivedState_not_Rejected. }
  simpl. rewrite insert_insert_eq.
  replace (wrap (wrap (remainingQuantity o - q1) - q2))
    with (wrap (remainingQuantity o - (q1 + q2))) by wrap_arith.
  replace (wrap (wrap (filledQuantity o + q1) + q2))
    with (wrap (filledQuantity o + (q1 + q2))) by wrap_arith.
  split; [| split; [| done]].
  - f_equal. f_equal.
    destruct (pendingState (orderState o)) eqn:Hp; [by rewrite Hp |].
    by rewrite derivedState_is_not_pending.
  - unfold getNFQ. simpl. destruct (isB (side o)); wrap_arith.
Qed.

Lemma two_fills_are_one_witness :
  in_int (5 + 1) = true
  ∧ orders (OnOrderFilled 100 1 (OnOrderFilled 100 5 manager_replace_pending))
    = orders (OnOrderFilled 100 (5 + 1) manager_replace_pending)
  ∧ getNFQ (OnOrderFilled 100 1 (OnOrderFilled 100 5 manager_replace_pending))
    = getNFQ (OnOrderFilled 100 (5 + 1) manager_replace_pending)
  ∧ replacePendingOrdersMap
      (OnOrderFilled 100 1 (OnOrderFilled 100 5 manager_replace_pending))
    = replacePendingOrdersMap
        (OnOrderFilled 100 (5 + 1) manager_replace_pending).
Proof.
  split; [reflexivity |].
  apply (two_fills_are_one 100 5 1 manager_replace_pending). reflexivity.
Defined.

(** X17: a fill that reaches an order in [NewPending] or [ReplacePending]
    is applied without resolving the request: the state stays as it is
    while the quantities move and ConfirmedOrderValue of the order's side
    drops by [price * quantityFilled], exactly so when the two [int]
    results are within range, the product is a [double] and the new
    ConfirmedOrderValue a [long double]. *)
Theorem fill_keeps_pending_state (i q : Z) (m : OrderManager) (o : Order) :
  orders m !! i = Some o → pendingState (orderState o) = true →
  in_int (remainingQuantity o - q) = true →
  in_int (filledQuantity o + q) = true →
  is_double (price o * inject_Z q) = true →
  is_long_double (getCOV (side o) m - price o * inject_Z q) = true →
  order_at i (OnOrderFilled i q m)
    = Some (mkOrder (id o) (side o) (price o) (totalQuantity o)
              (remainingQuantity o - q) (filledQuantity o + q)
              (orderState o))
  ∧ (getCOV (side o) (OnOrderFilled i q m)
     == getCOV (side o) m - price o * inject_Z q)%Q.
Proof.
  intros Ho Hp Hr Hf Hd Hl.
  rewrite (OnOrderFilled_applied i q m o Ho)
    by (intros Hrej; by rewrite Hrej in Hp).
  rewrite Hp, (wrap_in_int _ Hr), (wrap_in_int _ Hf).
  unfold order_at. simpl. rewrite lookup_insert_eq.
  split; [done |].
  unfold getCOV in *. simpl.
  rewrite (aget_aadd_exact _ _ _ _ (- (price o * inject_Z q))%Q).
  - rewrite eqb_reflx. reflexivity.
  - by rewrite (dmul_exact _ _ _ (Qeq_refl _)).
  - done.
Qed.

Lemma fill_keeps_pending_state_witness :
  orders manager_replace_pending !! 100
    = Some (mkOrder 100 "B" 200 10 5 5 ReplacePending)
  ∧ pendingState (orderState (mkOrder 100 "B" 200 10 5 5 ReplacePending))
    = true
  ∧ in_int (5 - 6) = true
  ∧ in_int (5 + 6) = true
  ∧ is_double (200 * inject_Z 6) = true
  ∧ is_long_double (getCOV "B" manager_replace_pending - 200 * inject_Z 6)
    = true
  ∧ order_at 100 (OnOrderFilled 100 6 manager_replace_pending)
    = Some (mkOrder 100 "B" 200 10 (5 - 6) (5 + 6) ReplacePending)
  ∧ (getCOV "B" (OnOrderFilled 100 6 manager_replace_pending)
     == getCOV "B" manager_replace_pending - 200 * inject_Z 6)%Q.
Proof.
  do 6 (split; [vm_compute; reflexivity |]).
  apply (fill_keeps_pending_state 100 6 manager_replace_pending
           (mkOrder 100 "B" 200 10 5 5 ReplacePending));
    vm_compute; reflexivity.
Defined.

(** ** The replace cycles on the order *)

(** X18: after a replace request for an order that is not pending and its
    acknowledgment, the order the manager holds under the old id has the
    new id, total and remaining quantity increased, in [int] arithmetic,
    by the delta of this request, and its filled quantity, side and price
    unchanged, whatever record an earlier cycle left in the
    pending-replace index; its state is [Active], [PartiallyFilled] or
    [Completed]. *)
Theorem replace_then_ack_order (oldId newId D : Z) (m : OrderManager)
    (o : Order) :
  orders m !! oldId = Some o →
  pendingState (orderState o) = false →
  ∃ m2 o2,
    OnRequestAcknowledged oldId (OnReplaceOrderRequest oldId newId D m)
      = Some m2
    ∧ order_at oldId m2 = Some o2
    ∧ id o2 = newId
    ∧ totalQuantity o2 = wrap (totalQuantity o + D)
    ∧ remainingQuantity o2 = wrap (remainingQuantity o + D)
    ∧ filledQuantity o2 = filledQuantity o
    ∧ side o2 = side o
    ∧ price o2 = price o
    ∧ confirmedState (orderState o2) = true.
Proof.
  intros Ho Hst.
  rewrite (OnReplaceOrderRequest_accepted _ _ _ _ _ Ho Hst).
  unfold OnRequestAcknowledged; simpl.
  rewrite !lookup_insert_eq; simpl.
  do 2 eexists. split; [reflexivity |].
  unfold order_at. simpl. rewrite lookup_insert_eq.
  split; [reflexivity |]. simpl.
  repeat (split; [reflexivity |]).
  match goal with |- context [derivedState ?x] =>
    by destruct (derivedState_resolved x) as [-> | [-> | ->]] end.
Qed.

Lemma replace_then_ack_order_witness :
  orders manager_filled5 !! 100 = Some order100_filled5
  ∧ pendingState (orderState order100_filled5) = false
  ∧ ∃ m2 o2,
      OnRequestAcknowledged 100 (OnReplaceOrderRequest 100 101 2 manager_filled5)
        = Some m2
      ∧ order_at 100 m2 = Some o2
      ∧ id o2 = 101
      ∧ totalQuantity o2 = wrap (totalQuantity order100_filled5 + 2)
      ∧ remainingQuantity o2 = wrap (remainingQuantity order100_filled5 + 2)
      ∧ filledQuantity o2 = filledQuantity order100_filled5
      ∧ side o2 = side order100_filled5
      ∧ price o2 = price order100_filled5
      ∧ confirmedState (orderState o2) = true.
Proof.
  split; [reflexivity | split; [reflexivity |]].
  apply (replace_then_ack_order 100 101 2 manager_filled5 order100_filled5);
    reflexivity.
Defined.

(** X19: a replace request followed by its rejection gives back the order
    index as it was, for an order whose state agrees with its quantities
    (every [Active], [PartiallyFilled] or [Completed] order of a reachable
    state), and leaves no record under the id in the pending-replace
    index. *)
Theorem replace_then_reject_restores_orders (oldId newId D : Z)
    (m : OrderManager) (o : Order) :
  orders m !! oldId = Some o →
  orderState o = derivedState o →
  orders (OnRequestRejected oldId (OnReplaceOrderRequest oldId newId D m))
    = orders m
  ∧ replacePendingOrdersMap
      (OnRequestRejected oldId (OnReplaceOrderRequest oldId newId D m))
    !! oldId = None
  ∧ getNFQ (OnRequestRejected oldId (OnReplaceOrderRequest oldId newId D m))
    = getNFQ m.
Proof.
  intros Ho Hst.
  assert (Hp : pendingState (orderState o) = false)
    by (rewrite Hst; apply derivedState_is_not_pending).
  rewrite (OnReplaceOrderRequest_accepted _ _ _ _ _ Ho Hp).
  unfold OnRequestRejected; simpl.
  rewrite !lookup_insert_eq; simpl.
  rewrite lookup_delete_eq, insert_insert_eq.
  split; [| done].
  apply insert_id. rewrite Ho. f_equal.
  unfold ChangeOrderState, set_orderState. simpl.
  change (derivedState (mkOrder (id o) (side o) (price o) (totalQuantity o)
            (remainingQuantity o) (filledQuantity o) ReplacePending))
    with (derivedState o).
  rewrite <- Hst. by destruct o.
Qed.

Lemma replace_then_reject_restores_orders_witness :
  orders manager_filled5 !! 100 = Some order100_filled5
  ∧ orderState order100_filled5 = derivedState order100_filled5
  ∧ orders (OnRequestRejected 100 (OnReplaceOrderRequest 100 101 2 manager_filled5))
    = orders manager_filled5
  ∧ replacePendingOrdersMap
      (OnRequestRejected 100 (OnReplaceOrderRequest 100 101 2 manager_filled5))
    !! 100 = None
  ∧ getNFQ (OnRequestRejected 100 (OnReplaceOrderRequest 100 101 2 manager_filled5))
    = getNFQ manager_filled5.
Proof.
  split; [reflexivity | split; [reflexivity |]].
  apply (replace_then_reject_restores_orders 100 101 2 manager_filled5
           order100_filled5); reflexivity.
Defined.
